(** * YouTube playlist summarizer: a shallow embedding of [YT_notes_generator.py]

    The development follows the source file top to bottom:
    - Python string primitives used by the program ([in], [str.strip],
      truthiness) and the two regular expressions, written as matchers;
    - the external services (generative model, playlist listing, transcript
      source, clock) as an interface over an explicit world state;
    - [get_playlist_id], [extract_playlist_items], [extract_transcript],
      [generate_with_gemini] and the processing loop of the page;
    - the properties of these functions.

    Conventions.  A Python [str] is a [string]; a character is its code
    point, in the range 0..255.  A Python [int] is a [Z].  An exception is
    represented by its text [str(e)]; only instances of [Exception] are
    modelled.  Calls to the page renderer return, as they do when the
    widgets of a run are distinct (the text area of the transcript tab has
    no key, so two videos of a run must not show the same preview); they
    are recorded in the trace of events of a run, as are the sleeps.
    [time.sleep] raises for a duration that it rejects, and [int] for a
    numeral beyond the limit of the interpreter. *)

From Stdlib Require Import ZArith List String Ascii Bool Lia DecimalString.
Import ListNotations.
Open Scope string_scope.
Open Scope list_scope.
Open Scope Z_scope.

(** ** Python strings *)

Module PyStr.

(** Truth value of a [str]: every string but the empty one. *)
Definition truthy (s : string) : bool :=
  match s with
  | EmptyString => false
  | String _ _ => true
  end.

(** Truth value of a value that is [None] or a [str]. *)
Definition truthy_opt (o : option string) : bool :=
  match o with
  | None => false
  | Some s => truthy s
  end.

(** Code points below 256 on which [str.isspace] (and [\s] of a [str]
    pattern) hold: 9..13, 28..32, 133 and 160. *)
Definition is_space (c : ascii) : bool :=
  let n := nat_of_ascii c in
  ((9 <=? n) && (n <=? 13))%nat || ((28 <=? n) && (n <=? 32))%nat
  || (n =? 133)%nat || (n =? 160)%nat.

(** [0-9], which is also [\d] on code points below 256. *)
Definition is_digit (c : ascii) : bool :=
  let n := nat_of_ascii c in ((48 <=? n) && (n <=? 57))%nat.

Definition digit_value (c : ascii) : Z := Z.of_nat (nat_of_ascii c) - 48.

(** [s.lstrip()] *)
Fixpoint lstrip (s : string) : string :=
  match s with
  | EmptyString => EmptyString
  | String c s' => if is_space c then lstrip s' else s
  end.

(** [s.rstrip()] *)
Fixpoint rstrip (s : string) : string :=
  match s with
  | EmptyString => EmptyString
  | String c s' =>
      match rstrip s' with
      | EmptyString => if is_space c then EmptyString else String c EmptyString
      | r => String c r
      end
  end.

(** [s.strip()] *)
Definition strip (s : string) : string := lstrip (rstrip s).

(** The rest of [s] after the literal [p], when [s] starts with [p]. *)
Fixpoint strip_prefix (p s : string) : option string :=
  match p, s with
  | EmptyString, _ => Some s
  | String a p', String b s' =>
      if Ascii.eqb a b then strip_prefix p' s' else None
  | String _ _, EmptyString => None
  end.

(** [s.startswith(p)] *)
Definition starts_with (p s : string) : bool :=
  match strip_prefix p s with
  | Some _ => true
  | None => false
  end.

(** [needle in hay] *)
Fixpoint contains (needle hay : string) : bool :=
  starts_with needle hay ||
  match hay with
  | EmptyString => false
  | String _ hay' => contains needle hay'
  end.

(** Every character of [s] satisfies [f]. *)
Fixpoint all_chars (f : ascii -> bool) (s : string) : bool :=
  match s with
  | EmptyString => true
  | String c s' => f c && all_chars f s'
  end.

(** [s] is empty or starts with a character that does not satisfy [f]. *)
Definition stops (f : ascii -> bool) (s : string) : bool :=
  match s with
  | EmptyString => true
  | String c _ => negb (f c)
  end.

(** The longest prefix of [s] whose characters satisfy [f], and the rest:
    a greedy [[...]*] at the head of [s]. *)
Fixpoint span (f : ascii -> bool) (s : string) : string * string :=
  match s with
  | EmptyString => (EmptyString, EmptyString)
  | String c s' =>
      if f c then let '(t, r) := span f s' in (String c t, r)
      else (EmptyString, s)
  end.

(** The number that a string of decimal digits denotes: [int(s)] when
    [int] accepts the string. *)
Definition int_of_digits (s : string) : Z :=
  fold_left (fun acc c => 10 * acc + digit_value c) (list_ascii_of_string s) 0.

(** [s[:n]] for [0 <= n]. *)
Definition slice_to (n : nat) (s : string) : string := substring 0 n s.

End PyStr.

(** ** The two patterns *)

Module Pattern.
Import PyStr.

(** Leftmost match of a pattern given by its anchored matcher:
    [re.search] tries every start position from left to right. *)
Fixpoint search {A : Type} (match_at : string -> option A) (s : string)
  : option A :=
  match match_at s with
  | Some a => Some a
  | None =>
      match s with
      | EmptyString => None
      | String _ s' => search match_at s'
      end
  end.

(** [[a-zA-Z0-9_-]] *)
Definition is_token_char (c : ascii) : bool :=
  let n := nat_of_ascii c in
  ((97 <=? n) && (n <=? 122))%nat || ((65 <=? n) && (n <=? 90))%nat
  || ((48 <=? n) && (n <=? 57))%nat || (n =? 95)%nat || (n =? 45)%nat.

(** [(?:list=)([a-zA-Z0-9_-]+)] anchored at the head of [s]; the value is
    group 1.  The class is greedy and nothing follows it, so it takes the
    whole run of token characters. *)
Definition playlist_match_at (s : string) : option string :=
  match strip_prefix "list=" s with
  | None => None
  | Some r =>
      let tok := fst (span is_token_char r) in
      if truthy tok then Some tok else None
  end.

(** [retry_delay\s*{\s*seconds:\s*(\d+)] anchored at the head of [s]; the
    value is group 1.  Each greedy [\s*] is followed by a character that is
    not white space, and the greedy [\d+] ends the pattern, so each takes
    its whole run. *)
Definition retry_delay_match_at (s : string) : option string :=
  match strip_prefix "retry_delay" s with
  | None => None
  | Some r1 =>
      match strip_prefix "{" (snd (span is_space r1)) with
      | None => None
      | Some r2 =>
          match strip_prefix "seconds:" (snd (span is_space r2)) with
          | None => None
          | Some r3 =>
              let digits := fst (span is_digit (snd (span is_space r3))) in
              if truthy digits then Some digits else None
          end
      end
  end.

End Pattern.

(** ** [get_playlist_id] *)

Definition get_playlist_id (url : string) : option string :=
  Pattern.search Pattern.playlist_match_at url.

(** ** Values exchanged with the services *)

(** [str(e)] of a raised exception. *)
Definition exn := string.

(** A call that returns a value or raises. *)
Inductive outcome (A : Type) : Type :=
| Ret (a : A)
| Raise (e : exn).
Arguments Ret {A} a.
Arguments Raise {A} e.

(** The default of [sys.get_int_max_str_digits()]. *)
Definition int_max_str_digits : nat := 4300.

(** [int(digits)] for a string of decimal digits: a string of more digits
    than the limit, leading zeros included, raises [ValueError]. *)
Definition py_int (digits : string) : outcome Z :=
  if (int_max_str_digits <? String.length digits)%nat then
    Raise ("Exceeds the limit (4300 digits) for integer string conversion: "
           ++ "value has "
           ++ NilEmpty.string_of_uint (Nat.to_uint (String.length digits))
           ++ " digits; use sys.set_int_max_str_digits() to increase the limit"
          )%string
  else Ret (PyStr.int_of_digits digits).

(** The object returned by [model.generate_content]; [text] is its [.text]
    property, which raises when the response carries no text. *)
Record Response := { text : outcome string }.

(** An element of ["items"] of a listing page.  A missing key of the item
    itself ([item["contentDetails"]], [item["snippet"]]) is [None]; inside,
    [.get] gives [None] for a missing field. *)
Record PlaylistItem := {
  contentDetails : option (option string);   (* the ["videoId"] field *)
  snippet : option (option string)           (* the ["title"] field *)
}.

(** A page of [playlistItems().list(...).execute()]. *)
Record Page := {
  items : option (list PlaylistItem);
  nextPageToken : option string
}.

(** [{"videoId": ..., "title": ...}] *)
Record PlaylistVideo := { videoId : string; title : string }.

(** A segment of a transcript. *)
Record Segment := { seg_text : string }.

(** What [YouTubeTranscriptApi.get_transcript] does. *)
Inductive transcript_fetch : Type :=
| Fetched (segments : list Segment)
| TranscriptsDisabled
| NoTranscriptFound
| FetchError (e : exn).

(** The external services, over an explicit world state. *)
Class Services := {
  World : Type;
  (* genai.GenerativeModel(model_name) *)
  GenerativeModel : string -> World -> outcome unit * World;
  (* model.generate_content(input), for the model of that name *)
  generate_content : string -> string -> World -> outcome Response * World;
  (* time.sleep(seconds), for a duration that it accepts *)
  sleep : Z -> World -> World;
  (* the exception of time.sleep(seconds) for a duration that it rejects *)
  sleep_rejects : Z -> World -> option exn;
  (* build("youtube", "v3", developerKey=YOUTUBE_API_KEY) *)
  build : World -> outcome unit * World;
  (* youtube.playlistItems().list(part=..., playlistId=, maxResults=50,
     pageToken=).execute() *)
  execute : string -> option string -> World -> outcome Page * World;
  (* YouTubeTranscriptApi.get_transcript(video_id, languages=[...]) *)
  get_transcript : string -> World -> transcript_fetch * World
}.

(** ** Trace of a run *)

(** The formatted notices of the page, by their arguments. *)
Inductive notice : Type :=
| RateLimitHit (delay_seconds : Z)
| ModelFailed (model_name err_str : string)
| PlaylistFetchFailed (e : exn)
| TranscriptError (video_id : string) (e : exn)
| NoTranscriptSkipping
| GeneratingNotes
| SummaryFailed
| CreatingQuestions
| QAFailed
| Waiting (throttle_delay : Z).

(** A Python [dict] with [str] keys and values, in insertion order. *)
Definition dict := list (string * string).

Inductive element : Type :=
| Divider
| Subheader (title : string) (position total : Z)
| WatchLink (video_id : string)
| Thumbnail (video_id : string)
| Tabs
| Markdown (body : string)
| DownloadButtons (content video_id content_type : string)
| TextArea (value : string)
| DownloadEverything
| DownloadAll (file_name : string) (bundle : dict)
| Balloons.

Inductive event : Type :=
| EvConstruct (model_name : string)
| EvInvoke (model_name input : string) (result : outcome string)
| EvSleep (seconds : Z)
| EvPageRequest (playlist_id : string) (page_token : option string)
| EvWarning (n : notice)
| EvError (n : notice)
| EvInfo (n : notice)
| EvShow (e : element).

Definition is_invoke (ev : event) : bool :=
  match ev with EvInvoke _ _ _ => true | _ => false end.

Definition invoked_model (model_name : string) (ev : event) : bool :=
  match ev with EvInvoke m _ _ => String.eqb m model_name | _ => false end.

Definition is_page_request (ev : event) : bool :=
  match ev with EvPageRequest _ _ => true | _ => false end.

Definition slept (ev : event) : Z :=
  match ev with EvSleep d => d | _ => 0 end.

(** Number of calls of [generate_content] in a trace. *)
Definition invocations (tr : list event) : nat :=
  List.length (filter is_invoke tr).

(** Seconds spent in [time.sleep] in a trace. *)
Definition total_wait (tr : list event) : Z :=
  fold_right (fun ev acc => slept ev + acc) 0 tr.

(** ** [dict] operations *)

(** [d[k] = v]: an existing key keeps its position. *)
Fixpoint dict_set (k v : string) (d : dict) : dict :=
  match d with
  | [] => [(k, v)]
  | (k', v') :: d' =>
      if String.eqb k k' then (k, v) :: d' else (k', v') :: dict_set k v d'
  end.


Definition dict_keys (d : dict) : list string := map fst d.

(** Truth value of a [dict]: non-empty. *)
Definition dict_truthy (d : dict) : bool :=
  match d with [] => false | _ :: _ => true end.

Section Program.
Context {svc : Services}.

(** ** [generate_with_gemini] *)

(** The body of the [try]: [model.generate_content(prompt + text)] and
    [response.text]; the value is the text before [.strip()]. *)
Definition attempt (model_name input : string) (w : World)
  : outcome string * World :=
  let '(r, w1) := generate_content model_name input w in
  match r with
  | Ret response => (text response, w1)
  | Raise e => (Raise e, w1)
  end.

(** The value of [int(delay_match.group(1)) if delay_match else 60] when
    [int] returns. *)
Definition retry_delay_seconds (err_str : string) : Z :=
  match Pattern.search Pattern.retry_delay_match_at err_str with
  | Some digits => PyStr.int_of_digits digits
  | None => 60
  end.

(** [int(delay_match.group(1)) if delay_match else 60], which raises when
    [int] does. *)
Definition delay_seconds_of (err_str : string) : outcome Z :=
  match Pattern.search Pattern.retry_delay_match_at err_str with
  | Some digits => py_int digits
  | None => Ret 60
  end.

(** [time.sleep(seconds)] *)
Definition time_sleep (seconds : Z) (w : World) : outcome unit * World :=
  match sleep_rejects seconds w with
  | Some e => (Raise e, w)
  | None => (Ret tt, sleep seconds w)
  end.

(** [for attempt in range(retries)] for one model.  [Ret (Some s)]: the
    function returned [s]; [Ret None]: the loop ended, by exhaustion or by
    [break]; [Raise e]: the handler raised [e], from [int] or from
    [time.sleep], which no [try] encloses. *)
Fixpoint retry_loop (model_name input : string) (attempts : nat) (w : World)
  : outcome (option string) * World * list event :=
  match attempts with
  | O => (Ret None, w, [])
  | S attempts' =>
      let '(r, w1) := attempt model_name input w in
      match r with
      | Ret t =>
          (Ret (Some (PyStr.strip t)), w1, [EvInvoke model_name input r])
      | Raise err_str =>
          if PyStr.contains "429" err_str then
            match delay_seconds_of err_str with
            | Raise e => (Raise e, w1, [EvInvoke model_name input r])
            | Ret delay_seconds =>
                let '(slept, w2) := time_sleep delay_seconds w1 in
                match slept with
                | Raise e =>
                    (Raise e, w2,
                     [EvInvoke model_name input r;
                      EvWarning (RateLimitHit delay_seconds)])
                | Ret _ =>
                    let '(res, w3, tr) :=
                      retry_loop model_name input attempts' w2 in
                    (res, w3,
                     EvInvoke model_name input r
                       :: EvWarning (RateLimitHit delay_seconds)
                       :: EvSleep delay_seconds :: tr)
                end
            end
          else
            (Ret None, w1,
             [EvInvoke model_name input r;
              EvError (ModelFailed model_name err_str)])
      end
  end.

(** [for model_name in model_names]; the constructor is called outside the
    [try]. *)
Fixpoint model_loop (model_names : list string) (input : string)
    (retries : Z) (w : World)
  : outcome (option string) * World * list event :=
  match model_names with
  | [] => (Ret None, w, [])
  | model_name :: rest =>
      let '(c, w1) := GenerativeModel model_name w in
      match c with
      | Raise e => (Raise e, w1, [EvConstruct model_name])
      | Ret _ =>
          let '(r, w2, tr) :=
            retry_loop model_name input (Z.to_nat retries) w1 in
          match r with
          | Raise e => (Raise e, w2, EvConstruct model_name :: tr)
          | Ret (Some s) => (Ret (Some s), w2, EvConstruct model_name :: tr)
          | Ret None =>
              let '(r', w3, tr') := model_loop rest input retries w2 in
              (r', w3, EvConstruct model_name :: tr ++ tr')
          end
      end
  end.

Definition generate_with_gemini (prompt text : string) (retries : Z)
    (model_names : list string) (w : World)
  : outcome (option string) * World * list event :=
  model_loop model_names (prompt ++ text)%string retries w.

Definition default_retries : Z := 3.
Definition default_model_names : list string :=
  ["gemini-1.5-flash"; "gemini-1.5-pro"].

(** ** [extract_playlist_items] *)

(** [for item in response.get("items", [])]: appends to [videos]; a missing
    part of an item raises [KeyError]. *)
Fixpoint collect_items (page_items : list PlaylistItem)
    (videos : list PlaylistVideo) : outcome (list PlaylistVideo) :=
  match page_items with
  | [] => Ret videos
  | item :: rest =>
      match contentDetails item with
      | None => Raise "'contentDetails'"
      | Some video_id =>
          match snippet item with
          | None => Raise "'snippet'"
          | Some item_title =>
              match video_id, item_title with
              | Some v, Some t =>
                  if PyStr.truthy v && PyStr.truthy t
                  then collect_items rest
                         (videos ++ [{| videoId := v; title := t |}])
                  else collect_items rest videos
              | _, _ => collect_items rest videos
              end
          end
      end
  end.

(** [while True]: one page request per iteration.  [None]: the loop is
    still running after [fuel] iterations. *)
Fixpoint paging_loop (fuel : nat) (playlist_id : string)
    (next_page_token : option string) (videos : list PlaylistVideo)
    (w : World)
  : option (outcome (list PlaylistVideo) * World * list event) :=
  match fuel with
  | O => None
  | S fuel' =>
      let request := EvPageRequest playlist_id next_page_token in
      let '(r, w1) := execute playlist_id next_page_token w in
      match r with
      | Raise e => Some (Raise e, w1, [request])
      | Ret response =>
          let page_items :=
            match items response with Some l => l | None => [] end in
          match collect_items page_items videos with
          | Raise e => Some (Raise e, w1, [request])
          | Ret videos' =>
              if PyStr.truthy_opt (nextPageToken response) then
                match paging_loop fuel' playlist_id (nextPageToken response)
                        videos' w1 with
                | None => None
                | Some (res, w2, tr) => Some (res, w2, request :: tr)
                end
              else Some (Ret videos', w1, [request])
          end
      end
  end.

(** The body of the [try] of [extract_playlist_items]. *)
Definition fetch_playlist (fuel : nat) (playlist_url : string) (w : World)
  : option (outcome (list PlaylistVideo) * World * list event) :=
  let playlist_id := get_playlist_id playlist_url in
  if negb (PyStr.truthy_opt playlist_id) then
    Some (Raise "Invalid playlist URL", w, [])
  else
    let '(b, w1) := build w in
    match b with
    | Raise e => Some (Raise e, w1, [])
    | Ret _ =>
        paging_loop fuel
          (match playlist_id with Some p => p | None => EmptyString end)
          None [] w1
    end.

(** [extract_playlist_items(playlist_url)]; the [except] branch reports the
    failure with [st.error] and returns the empty list. *)
Definition extract_playlist_items (fuel : nat) (playlist_url : string)
    (w : World)
  : option (list PlaylistVideo * World * list event) :=
  match fetch_playlist fuel playlist_url w with
  | None => None
  | Some (Ret videos, w', tr) => Some (videos, w', tr)
  | Some (Raise e, w', tr) =>
      Some ([], w', tr ++ [EvError (PlaylistFetchFailed e)])
  end.

(** ** [extract_transcript] *)

(** The decorated body; the notices are those shown with [st.warning]. *)
Definition extract_transcript_body (video_id : string) (w : World)
  : option string * World * list notice :=
  let '(r, w1) := get_transcript video_id w in
  match r with
  | Fetched transcript =>
      (Some (String.concat " " (map seg_text transcript)), w1, [])
  | TranscriptsDisabled => (None, w1, [])
  | NoTranscriptFound => (None, w1, [])
  | FetchError e => (None, w1, [TranscriptError video_id e])
  end.

(** The store of [st.cache_data]: for an argument, the value returned and
    the notices shown by the body, which a later call shows again. *)
Definition cache := list (string * (option string * list notice)).

Fixpoint cache_lookup (video_id : string) (c : cache)
  : option (option string * list notice) :=
  match c with
  | [] => None
  | (k, entry) :: c' =>
      if String.eqb video_id k then Some entry else cache_lookup video_id c'
  end.

(** [extract_transcript(video_id)] under [@st.cache_data]. *)
Definition extract_transcript (video_id : string) (c : cache) (w : World)
  : option string * cache * World * list event :=
  match cache_lookup video_id c with
  | Some (value, shown) => (value, c, w, map EvWarning shown)
  | None =>
      let '(value, w1, shown) := extract_transcript_body video_id w in
      (value, (video_id, (value, shown)) :: c, w1, map EvWarning shown)
  end.

(** ** The processing loop *)

Variable SUMMARY_PROMPT QA_PROMPT : string.

(** [create_download_buttons(content, video_id, content_type)] *)
Definition create_download_buttons (content video_id content_type : string)
  : list event :=
  [EvShow (DownloadButtons content video_id content_type)].

(** [transcript[:3000] + ("..." if len(transcript) > 3000 else "")] *)
Definition transcript_preview (transcript : string) : string :=
  String.append (PyStr.slice_to 3000 transcript)
    (if 3000 <? Z.of_nat (String.length transcript) then "..."
     else EmptyString).

(** What is left of the run after one video. *)
Record bundles := { all_notes : dict; all_qas : dict }.

(** A tab of the page: generate, then show and record, or report. *)
Definition generation_tab (prompt transcript video_id video_title : string)
    (content_type : string) (announce failed : notice) (bundle : dict)
    (w : World)
  : outcome dict * World * list event :=
  let '(r, w1, tr) :=
    generate_with_gemini prompt transcript default_retries
      default_model_names w in
  match r with
  | Raise e => (Raise e, w1, EvInfo announce :: tr)
  | Ret generated =>
      if PyStr.truthy_opt generated then
        let body :=
          match generated with Some s => s | None => EmptyString end in
        (Ret (dict_set video_title body bundle), w1,
         EvInfo announce :: tr ++ EvShow (Markdown body)
           :: create_download_buttons body video_id content_type)
      else (Ret bundle, w1, EvInfo announce :: tr ++ [EvError failed])
  end.

(** The body of [for idx, vid in enumerate(selected_videos)].  The cooldown
    is the value of a slider from 0 to 60, a duration that [time.sleep]
    accepts.  The widgets of the tabs are taken to return, as they do when
    no two videos of the run show the same transcript preview. *)
Definition process_video (throttle_delay : Z) (total : nat) (idx : nat)
    (vid : PlaylistVideo) (b : bundles) (c : cache) (w : World)
  : outcome bundles * cache * World * list event :=
  let video_id := videoId vid in
  let video_title := title vid in
  let header :=
    [EvShow Divider;
     EvShow (Subheader video_title (Z.of_nat idx + 1) (Z.of_nat total));
     EvShow (WatchLink video_id); EvShow (Thumbnail video_id)] in
  let '(transcript, c1, w1, tr1) := extract_transcript video_id c w in
  if negb (PyStr.truthy_opt transcript) then
    (Ret b, c1, w1, header ++ tr1 ++ [EvWarning NoTranscriptSkipping])
  else
    let transcript_text :=
      match transcript with Some s => s | None => EmptyString end in
    let '(r2, w2, tr2) :=
      generation_tab SUMMARY_PROMPT transcript_text video_id video_title
        "summary" GeneratingNotes SummaryFailed (all_notes b) w1 in
    match r2 with
    | Raise e => (Raise e, c1, w2, header ++ tr1 ++ EvShow Tabs :: tr2)
    | Ret notes =>
        let '(r3, w3, tr3) :=
          generation_tab QA_PROMPT transcript_text video_id video_title
            "qa" CreatingQuestions QAFailed (all_qas b) w2 in
        match r3 with
        | Raise e =>
            (Raise e, c1, w3, header ++ tr1 ++ EvShow Tabs :: tr2 ++ tr3)
        | Ret qas =>
            let tab3 :=
              EvShow (TextArea (transcript_preview transcript_text))
                :: create_download_buttons transcript_text video_id
                     "transcript" in
            let b' := {| all_notes := notes; all_qas := qas |} in
            if (0 <? throttle_delay)
               && (Z.of_nat idx <? Z.of_nat total - 1) then
              (Ret b', c1, sleep throttle_delay w3,
               header ++ tr1 ++ EvShow Tabs :: tr2 ++ tr3 ++ tab3
                 ++ [EvInfo (Waiting throttle_delay);
                     EvSleep throttle_delay])
            else
              (Ret b', c1, w3,
               header ++ tr1 ++ EvShow Tabs :: tr2 ++ tr3 ++ tab3)
        end
    end.

(** The loop over [enumerate(selected_videos)], from position [idx]. *)
Fixpoint process_videos (throttle_delay : Z) (total : nat) (idx : nat)
    (vids : list PlaylistVideo) (b : bundles) (c : cache) (w : World)
  : outcome bundles * cache * World * list event :=
  match vids with
  | [] => (Ret b, c, w, [])
  | vid :: rest =>
      let '(r, c1, w1, tr) := process_video throttle_delay total idx vid b c w in
      match r with
      | Raise e => (Raise e, c1, w1, tr)
      | Ret b1 =>
          let '(r', c2, w2, tr') :=
            process_videos throttle_delay total (S idx) rest b1 c1 w1 in
          (r', c2, w2, tr ++ tr')
      end
  end.

(** The block under the start button: the loop from empty bundles, then
    the aggregate downloads. *)
Definition start_processing (throttle_delay : Z)
    (selected_videos : list PlaylistVideo) (c : cache) (w : World)
  : outcome bundles * cache * World * list event :=
  let '(r, c1, w1, tr) :=
    process_videos throttle_delay (List.length selected_videos) 0
      selected_videos {| all_notes := []; all_qas := [] |} c w in
  match r with
  | Raise e => (Raise e, c1, w1, tr)
  | Ret b =>
      (Ret b, c1, w1,
       tr ++ [EvShow DownloadEverything]
         ++ (if dict_truthy (all_notes b)
             then [EvShow (DownloadAll "all_summaries.json" (all_notes b))]
             else [])
         ++ (if dict_truthy (all_qas b)
             then [EvShow (DownloadAll "all_qas.json" (all_qas b))]
             else [])
         ++ [EvShow Balloons])
  end.

End Program.

(** ** Vocabulary of the properties *)

(** The value and the trace of a run. *)
Definition result {A W : Type} (run : A * W * list event) : A := fst (fst run).
Definition trace {A W : Type} (run : A * W * list event) : list event :=
  snd run.

(** An invocation that returned a text. *)
Definition is_success (ev : event) : bool :=
  match ev with EvInvoke _ _ (Ret _) => true | _ => false end.

(** No invocation of the trace returned a text. *)
Definition no_success (tr : list event) : bool :=
  forallb (fun ev => negb (is_success ev)) tr.

(** The models invoked in a trace, one entry per invocation, in order. *)
Definition invoked_models (tr : list event) : list string :=
  flat_map (fun ev => match ev with EvInvoke m _ _ => [m] | _ => [] end) tr.

(** The models constructed in a trace, in order. *)
Definition constructed_models (tr : list event) : list string :=
  flat_map (fun ev => match ev with EvConstruct m => [m] | _ => [] end) tr.

(** The page tokens requested in a trace, in order. *)
Definition requested_tokens (tr : list event) : list (option string) :=
  flat_map (fun ev => match ev with EvPageRequest _ t => [t] | _ => [] end) tr.

(** An item carries both of its parts. *)
Definition has_parts (item : PlaylistItem) : bool :=
  match contentDetails item, snippet item with
  | Some _, Some _ => true
  | _, _ => false
  end.

(** From the description of the enumerator: the [{videoId, title}] records
    of the items that have both a videoId and a title, in order.  A field
    that is missing, [None] or the empty string is not there. *)
Definition videos_of (l : list PlaylistItem) : list PlaylistVideo :=
  flat_map
    (fun item =>
       match contentDetails item, snippet item with
       | Some (Some v), Some (Some t) =>
           if PyStr.truthy v && PyStr.truthy t
           then [{| videoId := v; title := t |}] else []
       | _, _ => []
       end) l.

(** The items of a page. *)
Definition page_items (p : Page) : list PlaylistItem :=
  match items p with Some l => l | None => [] end.

(** The value of a run of the processing loop. *)
Definition outcome_of {A C W : Type} (run : A * C * W * list event) : A :=
  fst (fst (fst run)).

(** A bundle after a step that at most assigns the entry of [key]. *)
Definition touched (key : string) (d d' : dict) : Prop :=
  d' = d \/ exists v, d' = dict_set key v d.

(** The requests that fetch the pages [ps], the first one with token [tok]. *)
Fixpoint page_requests (playlist_id : string) (tok : option string)
    (ps : list Page) : list event :=
  match ps with
  | [] => []
  | p :: ps' =>
      EvPageRequest playlist_id tok
        :: page_requests playlist_id (nextPageToken p) ps'
  end.

(** Every item of the pages carries both of its parts. *)
Definition complete_pages (ps : list Page) : Prop :=
  Forall (fun p => forallb has_parts (page_items p) = true) ps.

(** An item with a non-empty videoId and a non-empty title. *)
Definition has_both (item : PlaylistItem) : bool :=
  match contentDetails item, snippet item with
  | Some (Some v), Some (Some t) => PyStr.truthy v && PyStr.truthy t
  | _, _ => false
  end.

Section Scenarios.
Context {svc : Services}.

(** The constructor returns for every model of the list. *)
Definition constructible (model_names : list string) : Prop :=
  forall m w, In m model_names -> fst (GenerativeModel m w) = Ret tt.

(** What a call of a model gives: the text of the response, or the
    exception of [generate_content] or of [.text]. *)
Definition call_outcome (m input : string) (w : World) : outcome string :=
  match fst (generate_content m input w) with
  | Ret response => text response
  | Raise e => Raise e
  end.

(** Every call of a model fails, with an error that satisfies [P]. *)
Definition every_call_fails (P : exn -> Prop) : Prop :=
  forall m input w, exists e, call_outcome m input w = Raise e /\ P e.



(** The handler of a rate-limit error [err] raises [e]: from [int], or from
    [time.sleep] in some state of the world. *)
Definition handler_raises (err e : exn) : Prop :=
  PyStr.contains "429" err = true
  /\ (delay_seconds_of err = Raise e
      \/ exists d w0, delay_seconds_of err = Ret d
                      /\ sleep_rejects d w0 = Some e).


(** [pages_served playlist_id w tok ps w' tok']: from world [w] and page
    token [tok] the listing source answers the pages [ps], each with a
    continuation token, and is left in world [w'] with token [tok']. *)
Inductive pages_served (playlist_id : string)
  : World -> option string -> list Page -> World -> option string -> Prop :=
| served_none w tok : pages_served playlist_id w tok [] w tok
| served_more w tok p w1 ps w2 tok2 :
    execute playlist_id tok w = (Ret p, w1) ->
    PyStr.truthy_opt (nextPageToken p) = true ->
    pages_served playlist_id w1 (nextPageToken p) ps w2 tok2 ->
    pages_served playlist_id w tok (p :: ps) w2 tok2.

End Scenarios.

(** ** Scripted services

    A test double of the services: the constructor and the listing and
    transcript sources answer from tables; the answer of the model also
    depends on the number of calls of [generate_content] made so far, which
    is the world state. *)

Record Script := {
  constructor_error : string -> option exn;
  reply : string -> nat -> outcome Response;
  page_of : string -> option string -> outcome Page;
  transcript_of : string -> transcript_fetch
}.

Definition scripted (sc : Script) : Services := {|
  World := nat;
  GenerativeModel := fun model_name w =>
    (match constructor_error sc model_name with
     | Some e => Raise e
     | None => Ret tt
     end, w);
  generate_content := fun model_name _ w => (reply sc model_name w, S w);
  sleep := fun _ w => w;
  sleep_rejects := fun seconds _ =>
    if 9223372036 <? seconds
    then Some "timestamp too large to convert to C _PyTime_t" else None;
  build := fun w => (Ret tt, w);
  execute := fun playlist_id tok w => (page_of sc playlist_id tok, w);
  get_transcript := fun video_id w => (transcript_of sc video_id, w)
|}.

Definition no_pages : string -> option string -> outcome Page :=
  fun _ _ => Raise "no listing".

Definition no_transcripts : string -> transcript_fetch :=
  fun _ => NoTranscriptFound.

Definition rate_limited_2 : exn :=
  "429 Resource has been exhausted. retry_delay { seconds: 2 }".

(** Every call is rate limited, with a suggested delay of 2 seconds. *)
Definition always_rate_limited : Script := {|
  constructor_error := fun _ => None;
  reply := fun _ _ => Raise rate_limited_2;
  page_of := no_pages;
  transcript_of := no_transcripts
|}.

(** The constructor of the model raises. *)
Definition broken_constructor : Script := {|
  constructor_error := fun _ => Some "model not available";
  reply := fun _ _ => Ret {| text := Ret "unused" |};
  page_of := no_pages;
  transcript_of := no_transcripts
|}.

(** A text with white space around it; the last character is a newline. *)
Definition padded_answer : string :=
  "  notes of the lecture " ++ String "010"%char EmptyString.

(** The first call is rate limited, the second one answers. *)
Definition second_attempt_succeeds : Script := {|
  constructor_error := fun _ => None;
  reply := fun _ n =>
    match n with
    | O => Raise rate_limited_2
    | _ => Ret {| text := Ret padded_answer |}
    end;
  page_of := no_pages;
  transcript_of := no_transcripts
|}.

(** Every call fails with an error that is not a rate limit. *)
Definition always_failing : Script := {|
  constructor_error := fun _ => None;
  reply := fun _ _ => Raise "500 Internal error";
  page_of := no_pages;
  transcript_of := no_transcripts
|}.

Definition item_of (video_id item_title : option string) : PlaylistItem :=
  {| contentDetails := Some video_id; snippet := Some item_title |}.

(** A playlist of two pages; one item of the first page has no title. *)
Definition two_pages : Script := {|
  constructor_error := fun _ => None;
  reply := fun _ _ => Raise "unused";
  page_of := fun _ tok =>
    match tok with
    | None =>
        Ret {| items := Some [item_of (Some "v1") (Some "Intro");
                              item_of (Some "v2") None];
               nextPageToken := Some "T2" |}
    | Some _ =>
        Ret {| items := Some [item_of (Some "v3") (Some "Outro")];
               nextPageToken := None |}
    end;
  transcript_of := no_transcripts
|}.

(** The request of the second page fails. *)
Definition second_page_fails : Script := {|
  constructor_error := fun _ => None;
  reply := fun _ _ => Raise "unused";
  page_of := fun _ tok =>
    match tok with
    | None =>
        Ret {| items := Some [item_of (Some "v1") (Some "Intro")];
               nextPageToken := Some "T2" |}
    | Some _ => Raise "quotaExceeded"
    end;
  transcript_of := no_transcripts
|}.

(** A transcript without segments: its concatenation is the empty string. *)
Definition empty_transcript : Script := {|
  constructor_error := fun _ => None;
  reply := fun _ _ => Ret {| text := Ret "unused" |};
  page_of := no_pages;
  transcript_of := fun _ => Fetched []
|}.

(** Every video has a transcript of its own, and the model answers each
    call with a different text. *)
Definition numbered_answers : Script := {|
  constructor_error := fun _ => None;
  reply := fun _ n =>
    Ret {| text := Ret
      match n with
      | 0%nat => "summary A"
      | 1%nat => "questions A"
      | 2%nat => "summary B"
      | _ => "questions B"
      end |};
  page_of := no_pages;
  transcript_of := fun video_id =>
    if String.eqb video_id "v1"
    then Fetched [{| seg_text := "hello" |}; {| seg_text := "world" |}]
    else Fetched [{| seg_text := "good" |}; {| seg_text := "bye" |}]
|}.

(** ** The page around the processing loop *)

(** [l[:n]] *)
Definition slice_upto {A : Type} (n : Z) (l : list A) : list A :=
  if 0 <=? n then firstn (Z.to_nat n) l
  else firstn (List.length l - Z.to_nat (- n)) l.

(** [l[i]]: a negative index counts from the end; an index out of range
    raises [IndexError]. *)
Definition index {A : Type} (l : list A) (i : Z) : outcome A :=
  let j := if i <? 0 then i + Z.of_nat (List.length l) else i in
  if j <? 0 then Raise "list index out of range"
  else
    match nth_error l (Z.to_nat j) with
    | Some a => Ret a
    | None => Raise "list index out of range"
    end.

(** [[video_items[i] for i in selected_indices]] *)
Fixpoint pick {A : Type} (l : list A) (selected_indices : list Z)
  : outcome (list A) :=
  match selected_indices with
  | [] => Ret []
  | i :: rest =>
      match index l i with
      | Raise e => Raise e
      | Ret a =>
          match pick l rest with
          | Raise e => Raise e
          | Ret picked => Ret (a :: picked)
          end
      end
  end.

(** The value of the radio button. *)
Inductive selection_mode : Type := AllVideos | ChooseManually.

(** The values of the widgets of one run of the script. *)
Record Widgets := {
  playlist_url : string;
  max_videos : Z;
  process_option : selection_mode;
  throttle_delay : Z;
  selected_indices : list Z;
  start_button : bool
}.

(** What the page shows outside the functions above. *)
Inductive page_event : Type :=
| Shown (ev : event)
| NoVideosFound
| FoundVideos (count : nat).

Section Page.
Context {svc : Services}.
Variable SUMMARY_PROMPT QA_PROMPT : string.

(** The script from [if playlist_url:] on.  [None]: the enumeration is
    still running after [fuel] page requests. *)
Definition page (fuel : nat) (wd : Widgets) (c : cache) (w : World)
  : option (outcome unit * cache * World * list page_event) :=
  if negb (PyStr.truthy (playlist_url wd)) then Some (Ret tt, c, w, [])
  else
    match extract_playlist_items fuel (playlist_url wd) w with
    | None => None
    | Some (video_items, w1, tr) =>
        match video_items with
        | [] => Some (Ret tt, c, w1, map Shown tr ++ [NoVideosFound])
        | _ :: _ =>
            let found :=
              map Shown tr ++ [FoundVideos (List.length video_items)] in
            let selection :=
              match process_option wd with
              | ChooseManually => pick video_items (selected_indices wd)
              | AllVideos => Ret (slice_upto (max_videos wd) video_items)
              end in
            match selection with
            | Raise e => Some (Raise e, c, w1, found)
            | Ret selected_videos =>
                if start_button wd then
                  let '(r, c2, w2, tr2) :=
                    start_processing SUMMARY_PROMPT QA_PROMPT
                      (throttle_delay wd) selected_videos c w1 in
                  Some (match r with Ret _ => Ret tt | Raise e => Raise e end,
                        c2, w2, found ++ map Shown tr2)
                else Some (Ret tt, c, w1, found)
            end
        end
    end.

End Page.

(** ** More vocabulary *)

(** The delay that a failed invocation asks for: the one of its rate-limit
    signal, none for any other event. *)
Definition suggested_wait (ev : event) : Z :=
  match ev with
  | EvInvoke _ _ (Raise e) =>
      if PyStr.contains "429" e then retry_delay_seconds e else 0
  | _ => 0
  end.

Definition suggested_waits (tr : list event) : Z :=
  fold_right (fun ev acc => suggested_wait ev + acc) 0 tr.

(** The two fields of a record are not empty. *)
Definition filled (v : PlaylistVideo) : Prop :=
  PyStr.truthy (videoId v) = true /\ PyStr.truthy (title v) = true.

(** The events that [generate_with_gemini] and [extract_transcript] leave
    in a trace. *)
Definition is_service_event (ev : event) : bool :=
  match ev with
  | EvConstruct _ | EvInvoke _ _ _ | EvSleep _ | EvWarning _ | EvError _ =>
      true
  | _ => false
  end.

(** The cooldowns between videos in a trace. *)
Definition is_cooldown (ev : event) : bool :=
  match ev with EvInfo (Waiting _) => true | _ => false end.

Definition cooldowns (tr : list event) : nat :=
  List.length (filter is_cooldown tr).

(** The aggregate download buttons in a trace. *)
Definition is_download_all (ev : event) : bool :=
  match ev with EvShow (DownloadAll _ _) => true | _ => false end.

(** The events of the page that come from the functions of the program. *)
Definition shown_events (tr : list page_event) : list event :=
  flat_map (fun pe => match pe with Shown ev => [ev] | _ => [] end) tr.


(** The first model fails for good, the second one answers. *)
Definition fallback_answers : Script := {|
  constructor_error := fun _ => None;
  reply := fun model_name _ =>
    if String.eqb model_name "gemini-1.5-flash"
    then Raise "500 Internal error"
    else Ret {| text := Ret padded_answer |};
  page_of := no_pages;
  transcript_of := no_transcripts
|}.

(** The model answers with white space only. *)
Definition blank_answers : Script := {|
  constructor_error := fun _ => None;
  reply := fun _ _ => Ret {| text := Ret "   " |};
  page_of := no_pages;
  transcript_of := fun _ => Fetched [{| seg_text := "hello" |}]
|}.

(** A listing whose only item lacks its snippet. *)
Definition incomplete_item : Script := {|
  constructor_error := fun _ => None;
  reply := fun _ _ => Raise "unused";
  page_of := fun _ _ =>
    Ret {| items := Some [{| contentDetails := Some (Some "v1");
                             snippet := None |}];
           nextPageToken := None |};
  transcript_of := no_transcripts
|}.

(** A listing that always announces one more page. *)
Definition endless_listing : Script := {|
  constructor_error := fun _ => None;
  reply := fun _ _ => Raise "unused";
  page_of := fun _ _ =>
    Ret {| items := Some [item_of (Some "v1") (Some "Intro")];
           nextPageToken := Some "again" |};
  transcript_of := no_transcripts
|}.

(** An empty playlist. *)
Definition empty_listing : Script := {|
  constructor_error := fun _ => None;
  reply := fun _ _ => Raise "unused";
  page_of := fun _ _ => Ret {| items := None; nextPageToken := None |};
  transcript_of := no_transcripts
|}.

(** The summary fails, the questions are answered. *)
Definition summary_fails : Script := {|
  constructor_error := fun _ => None;
  reply := fun _ n =>
    match n with
    | 0%nat => Raise "500 Internal error"
    | 1%nat => Raise "503 Unavailable"
    | _ => Ret {| text := Ret "questions" |}
    end;
  page_of := no_pages;
  transcript_of := fun _ => Fetched [{| seg_text := "hello" |}]
|}.

(** The transcript source fails with an error of its own. *)
Definition transcript_error : Script := {|
  constructor_error := fun _ => None;
  reply := fun _ _ => Raise "unused";
  page_of := no_pages;
  transcript_of := fun _ => FetchError "connection reset"
|}.

(** ** Further vocabulary of the generator properties *)

(** The world in which a run ends. *)
Definition world_of {A W : Type} (run : A * W * list event) : W :=
  snd (fst run).


(** The services with a counter of the calls of [generate_content] beside
    the world. *)
Definition counting (svc : Services) : Services := {|
  World := (@World svc * nat)%type;
  GenerativeModel := fun m w =>
    let '(r, w') := @GenerativeModel svc m (fst w) in (r, (w', snd w));
  generate_content := fun m input w =>
    let '(r, w') := @generate_content svc m input (fst w) in
    (r, (w', S (snd w)));
  sleep := fun seconds w => (@sleep svc seconds (fst w), snd w);
  sleep_rejects := fun seconds w => @sleep_rejects svc seconds (fst w);
  build := fun w => let '(r, w') := @build svc (fst w) in (r, (w', snd w));
  execute := fun playlist_id tok w =>
    let '(r, w') := @execute svc playlist_id tok (fst w) in (r, (w', snd w));
  get_transcript := fun video_id w =>
    let '(r, w') := @get_transcript svc video_id (fst w) in (r, (w', snd w))
|}.


Definition rate_limited_too_long : exn :=
  "429 Resource has been exhausted. retry_delay { seconds: 9223372037 }".

(** Every call is rate limited, with a delay that [time.sleep] rejects. *)
Definition delay_too_long : Script := {|
  constructor_error := fun _ => None;
  reply := fun _ _ => Raise rate_limited_too_long;
  page_of := no_pages;
  transcript_of := no_transcripts
|}.



(** A listing of two items, the second of which lacks its snippet. *)
Definition mixed_items : Script := {|
  constructor_error := fun _ => None;
  reply := fun _ _ => Raise "unused";
  page_of := fun _ _ =>
    Ret {| items := Some [item_of (Some "v1") (Some "Intro");
                          {| contentDetails := Some (Some "v2");
                             snippet := None |}];
           nextPageToken := None |};
  transcript_of := no_transcripts
|}.

(** * Properties *)

(** ** Strings and patterns *)

Module PyStrFacts.
Import PyStr.

Lemma strip_prefix_app (p s : string) :
  strip_prefix p (p ++ s)%string = Some s.
Proof.
  induction p as [|a p IH]; simpl.
  - now destruct s.
  - now rewrite Ascii.eqb_refl.
Qed.

Lemma strip_prefix_inv (p s r : string) :
  strip_prefix p s = Some r -> s = (p ++ r)%string.
Proof.
  revert s; induction p as [|a p IH]; intros s H.
  - destruct s; simpl in H; now inversion H.
  - destruct s as [|b s]; simpl in H; [discriminate|].
    destruct (Ascii.eqb_spec a b) as [->|]; [|discriminate].
    simpl. f_equal. now apply IH.
Qed.

Lemma starts_with_app (p s : string) : starts_with p (p ++ s)%string = true.
Proof. unfold starts_with. now rewrite strip_prefix_app. Qed.

Lemma starts_with_contains (p s : string) :
  starts_with p s = true -> contains p s = true.
Proof. intros H. destruct s; simpl; now rewrite H. Qed.

Lemma contains_cons (p : string) (c : ascii) (s : string) :
  contains p s = true -> contains p (String c s) = true.
Proof. intros H. simpl. rewrite H. apply orb_true_r. Qed.

Lemma contains_false_cons (p : string) (c : ascii) (s : string) :
  contains p (String c s) = false ->
  starts_with p (String c s) = false /\ contains p s = false.
Proof. simpl. intros H. now apply orb_false_iff in H. Qed.

Lemma span_parts (f : ascii -> bool) (s : string) :
  s = (fst (span f s) ++ snd (span f s))%string.
Proof.
  induction s as [|c s IH]; simpl; [reflexivity|].
  destruct (f c); [|reflexivity].
  destruct (span f s) as [t r]; simpl in *. now f_equal.
Qed.

Lemma span_all (f : ascii -> bool) (s : string) :
  all_chars f (fst (span f s)) = true.
Proof.
  induction s as [|c s IH]; simpl; [reflexivity|].
  destruct (f c) eqn:E; [|reflexivity].
  destruct (span f s) as [t r]; simpl in *. now rewrite E.
Qed.

Lemma span_stops (f : ascii -> bool) (s : string) :
  stops f (snd (span f s)) = true.
Proof.
  induction s as [|c s IH]; simpl; [reflexivity|].
  destruct (f c) eqn:E.
  - destruct (span f s) as [t r]; simpl in *. exact IH.
  - simpl. now rewrite E.
Qed.

(** A run of [f]-characters followed by a stop is what [span] takes. *)
Lemma span_app (f : ascii -> bool) (t r : string) :
  all_chars f t = true -> stops f r = true ->
  span f (t ++ r)%string = (t, r).
Proof.
  intros Ht Hr. induction t as [|c t IH]; simpl in *.
  - destruct r as [|c r]; [reflexivity|]. simpl in Hr.
    apply negb_true_iff in Hr. simpl. now rewrite Hr.
  - apply andb_true_iff in Ht as [Hc Ht]. rewrite Hc, (IH Ht). reflexivity.
Qed.

End PyStrFacts.

Module PatternFacts.
Import PyStr PyStrFacts Pattern.

Lemma playlist_match_at_sound (s tok : string) :
  playlist_match_at s = Some tok ->
  truthy tok = true /\ all_chars is_token_char tok = true
  /\ starts_with ("list=" ++ tok) s = true.
Proof.
  unfold playlist_match_at.
  destruct (strip_prefix "list=" s) as [r|] eqn:E; [|discriminate].
  destruct (truthy (fst (span is_token_char r))) eqn:T; [|discriminate].
  intros H; inversion H; subst tok; clear H.
  split; [exact T|]. split; [apply span_all|].
  apply strip_prefix_inv in E. subst s.
  rewrite (span_parts is_token_char r) at 2.
  change (starts_with ("list=" ++ fst (span is_token_char r))
            (("list=" ++ fst (span is_token_char r))
               ++ snd (span is_token_char r)) = true)%string.
  apply starts_with_app.
Qed.

Lemma playlist_match_at_hit (tok rest : string) :
  truthy tok = true -> all_chars is_token_char tok = true ->
  stops is_token_char rest = true ->
  playlist_match_at ("list=" ++ tok ++ rest) = Some tok.
Proof.
  intros T A R. unfold playlist_match_at.
  rewrite strip_prefix_app, (span_app _ _ _ A R). simpl. now rewrite T.
Qed.

Lemma playlist_match_at_needs_prefix (s : string) :
  starts_with "list=" s = false -> playlist_match_at s = None.
Proof.
  unfold starts_with, playlist_match_at.
  now destruct (strip_prefix "list=" s).
Qed.

(** The literal [list=] has no border: an occurrence cannot start in a
    text before another occurrence and end inside it. *)
Lemma no_straddle (a x : string) :
  a <> EmptyString -> starts_with "list=" a = false ->
  starts_with "list=" (a ++ "list=" ++ x) = false.
Proof.
  unfold starts_with.
  destruct a as [|c1 [|c2 [|c3 [|c4 [|c5 a]]]]]; [congruence|..];
    intros _; cbn [strip_prefix append];
    repeat match goal with
      | |- context [Ascii.eqb ?u ?v] =>
          let E := fresh "E" in
          destruct (Ascii.eqb u v) eqn:E;
          try (vm_compute in E; discriminate E);
          cbn [strip_prefix append]
      end; easy.
Qed.

Lemma search_skips (pre tok rest : string) :
  contains "list=" pre = false ->
  search playlist_match_at (pre ++ "list=" ++ tok ++ rest)
  = search playlist_match_at ("list=" ++ tok ++ rest).
Proof.
  induction pre as [|c pre IH]; intros H; [reflexivity|].
  apply contains_false_cons in H as [Hhead Htail].
  change (String c pre ++ "list=" ++ tok ++ rest)%string
    with (String c (pre ++ "list=" ++ tok ++ rest))%string.
  cbn [search].
  change (String c (pre ++ "list=" ++ tok ++ rest))%string
    with (String c pre ++ "list=" ++ (tok ++ rest))%string.
  rewrite playlist_match_at_needs_prefix
    by (apply no_straddle; [discriminate|exact Hhead]).
  now apply IH.
Qed.

Lemma search_no_literal (s : string) :
  contains "list=" s = false -> search playlist_match_at s = None.
Proof.
  induction s as [|c s IH]; intros H.
  - reflexivity.
  - apply contains_false_cons in H as [Hhead Htail].
    cbn [search]. rewrite (playlist_match_at_needs_prefix _ Hhead).
    now apply IH.
Qed.

Lemma search_sound (s tok : string) :
  search playlist_match_at s = Some tok ->
  truthy tok = true /\ all_chars is_token_char tok = true
  /\ contains ("list=" ++ tok) s = true.
Proof.
  induction s as [|c s IH]; cbn [search].
  - destruct (playlist_match_at "") eqn:E; [|discriminate].
    intros H; inversion H; subst.
    destruct (playlist_match_at_sound _ _ E) as (T & A & P).
    auto using starts_with_contains.
  - destruct (playlist_match_at (String c s)) eqn:E.
    + intros H; inversion H; subst.
      destruct (playlist_match_at_sound _ _ E) as (T & A & P).
      auto using starts_with_contains.
    + intros H. destruct (IH H) as (T & A & P).
      auto using contains_cons.
Qed.

Lemma playlist_match_at_head (s tok : string) :
  playlist_match_at s = Some tok ->
  exists c b, s = ("list=" ++ String c b)%string /\ is_token_char c = true.
Proof.
  unfold playlist_match_at.
  destruct (strip_prefix "list=" s) as [r|] eqn:E; [|discriminate].
  apply strip_prefix_inv in E. subst s.
  destruct r as [|c b]; [discriminate|]. cbn [span].
  destruct (is_token_char c) eqn:T; [|discriminate].
  intros _. now exists c, b.
Qed.

Lemma playlist_match_at_occurrence (c : ascii) (b : string) :
  is_token_char c = true ->
  playlist_match_at ("list=" ++ String c b) <> None.
Proof.
  intros T. unfold playlist_match_at. rewrite strip_prefix_app.
  cbn [span]. rewrite T. destruct (span is_token_char b). discriminate.
Qed.

Lemma playlist_match_at_rest (s tok : string) :
  playlist_match_at s = Some tok ->
  exists rest, s = ("list=" ++ tok ++ rest)%string
               /\ stops is_token_char rest = true.
Proof.
  unfold playlist_match_at.
  destruct (strip_prefix "list=" s) as [r|] eqn:E; [|discriminate].
  destruct (truthy (fst (span is_token_char r))); [|discriminate].
  intros H; inversion H; subst tok.
  apply strip_prefix_inv in E. subst s.
  exists (snd (span is_token_char r)). split; [|apply span_stops].
  now rewrite <- span_parts.
Qed.

(** The leftmost match: no occurrence of [list=] before it is followed by a
    token character. *)
Lemma search_leftmost (pre tok rest : string) :
  truthy tok = true -> all_chars is_token_char tok = true ->
  stops is_token_char rest = true ->
  (forall a c b,
      (pre ++ "list=" ++ tok ++ rest = a ++ "list=" ++ String c b)%string ->
      is_token_char c = true ->
      (String.length pre <= String.length a)%nat) ->
  search playlist_match_at (pre ++ "list=" ++ tok ++ rest) = Some tok.
Proof.
  intros T A R. induction pre as [|c0 pre IH]; intros L.
  - change ("" ++ "list=" ++ tok ++ rest)%string
      with (String "l" ("ist=" ++ tok ++ rest))%string.
    cbn [search].
    change (String "l" ("ist=" ++ tok ++ rest))%string
      with ("list=" ++ tok ++ rest)%string.
    now rewrite (playlist_match_at_hit tok rest T A R).
  - change (String c0 pre ++ "list=" ++ tok ++ rest)%string
      with (String c0 (pre ++ "list=" ++ tok ++ rest))%string in *.
    cbn [search].
    destruct (playlist_match_at (String c0 (pre ++ "list=" ++ tok ++ rest)))
      as [t|] eqn:E.
    + apply playlist_match_at_head in E as (c & b & E & Tc).
      specialize (L EmptyString c b E Tc). cbn in L. lia.
    + apply IH. intros a c b E' Tc.
      pose proof (L (String c0 a) c b (f_equal (String c0) E') Tc) as G.
      cbn [String.length] in G. lia.
Qed.

Lemma search_no_occurrence (s : string) :
  (forall a c b, s = (a ++ "list=" ++ String c b)%string ->
                 is_token_char c = false) ->
  search playlist_match_at s = None.
Proof.
  induction s as [|c0 s IH]; intros H.
  - reflexivity.
  - cbn [search].
    destruct (playlist_match_at (String c0 s)) as [t|] eqn:E.
    + apply playlist_match_at_head in E as (c & b & E & Tc).
      rewrite (H EmptyString c b E) in Tc. discriminate.
    + apply IH. intros a c b E'.
      exact (H (String c0 a) c b (f_equal (String c0) E')).
Qed.

Lemma search_complete (s tok : string) :
  search playlist_match_at s = Some tok ->
  exists pre rest,
    s = (pre ++ "list=" ++ tok ++ rest)%string
    /\ stops is_token_char rest = true
    /\ (forall a c b,
           s = (a ++ "list=" ++ String c b)%string ->
           is_token_char c = true ->
           (String.length pre <= String.length a)%nat).
Proof.
  induction s as [|c0 s IH]; cbn [search].
  - destruct (playlist_match_at "") eqn:E; discriminate.
  - destruct (playlist_match_at (String c0 s)) as [t|] eqn:E.
    + intros H; inversion H; subst t.
      destruct (playlist_match_at_rest _ _ E) as (rest & Es & R).
      exists EmptyString, rest. split; [exact Es|]. split; [exact R|].
      intros; cbn; lia.
    + intros H. destruct (IH H) as (pre & rest & Es & R & L).
      exists (String c0 pre), rest.
      split; [exact (f_equal (String c0) Es)|].
      split; [exact R|].
      intros a c b Ea Tc. destruct a as [|a0 a].
      * exfalso.
        change ("" ++ "list=" ++ String c b)%string
          with ("list=" ++ String c b)%string in Ea.
        rewrite Ea in E. exact (playlist_match_at_occurrence c b Tc E).
      * change (String a0 a ++ "list=" ++ String c b)%string
          with (String a0 (a ++ "list=" ++ String c b))%string in Ea.
        injection Ea as _ Ea.
        pose proof (L a c b Ea Tc). cbn [String.length]. lia.
Qed.

Lemma search_none_complete (s : string) :
  search playlist_match_at s = None ->
  forall a c b, s = (a ++ "list=" ++ String c b)%string ->
                is_token_char c = false.
Proof.
  induction s as [|c0 s IH]; cbn [search].
  - intros _ a c b E. destruct a; discriminate.
  - destruct (playlist_match_at (String c0 s)) as [t|] eqn:E; [discriminate|].
    intros H a c b Ea. destruct a as [|a0 a].
    + change ("" ++ "list=" ++ String c b)%string
        with ("list=" ++ String c b)%string in Ea.
      rewrite Ea in E.
      destruct (is_token_char c) eqn:Tc; [|reflexivity].
      exfalso. exact (playlist_match_at_occurrence c b Tc E).
    + change (String a0 a ++ "list=" ++ String c b)%string
        with (String a0 (a ++ "list=" ++ String c b))%string in Ea.
      injection Ea as _ Ea.
      exact (IH H a c b Ea).
Qed.

End PatternFacts.

(** ** [get_playlist_id] *)

(** C6, as the code has it.  The extractor is a total function.  It returns
    the whole run of letters, digits, underscores and hyphens that follows
    the leftmost [list=] that is followed by such a character, and [None]
    when the URL has no such [list=], in particular when it has no [list=]
    at all.  So a URL that contains [list=ABC123] gives [ABC123] when the
    token ends there, by the end of the URL or by a character outside the
    class, and no [list=] before it is followed by a token character. *)
Theorem get_playlist_id_first_token :
  (forall pre tok rest : string,
      PyStr.truthy tok = true ->
      PyStr.all_chars Pattern.is_token_char tok = true ->
      PyStr.stops Pattern.is_token_char rest = true ->
      (forall a c b,
          (pre ++ "list=" ++ tok ++ rest = a ++ "list=" ++ String c b)%string ->
          Pattern.is_token_char c = true ->
          (String.length pre <= String.length a)%nat) ->
      get_playlist_id (pre ++ "list=" ++ tok ++ rest) = Some tok)
  /\ (forall url tok : string,
         get_playlist_id url = Some tok ->
         PyStr.truthy tok = true
         /\ PyStr.all_chars Pattern.is_token_char tok = true
         /\ PyStr.contains ("list=" ++ tok) url = true
         /\ exists pre rest,
              url = (pre ++ "list=" ++ tok ++ rest)%string
              /\ PyStr.stops Pattern.is_token_char rest = true
              /\ (forall a c b,
                     url = (a ++ "list=" ++ String c b)%string ->
                     Pattern.is_token_char c = true ->
                     (String.length pre <= String.length a)%nat))
  /\ (forall url : string,
         get_playlist_id url = None <->
         (forall a c b, url = (a ++ "list=" ++ String c b)%string ->
                        Pattern.is_token_char c = false))
  /\ (forall url : string,
         PyStr.contains "list=" url = false -> get_playlist_id url = None)
  /\ (forall pre tok rest : string,
         PyStr.contains "list=" pre = false ->
         PyStr.truthy tok = true ->
         PyStr.all_chars Pattern.is_token_char tok = true ->
         PyStr.stops Pattern.is_token_char rest = true ->
         get_playlist_id (pre ++ "list=" ++ tok ++ rest) = Some tok).
Proof.
  unfold get_playlist_id. split; [|split; [|split; [|split]]].
  - intros pre tok rest T A R L. now apply PatternFacts.search_leftmost.
  - intros url tok H.
    destruct (PatternFacts.search_sound _ _ H) as (T & A & C).
    split; [exact T|]. split; [exact A|]. split; [exact C|].
    now apply PatternFacts.search_complete.
  - intros url. split.
    + apply PatternFacts.search_none_complete.
    + apply PatternFacts.search_no_occurrence.
  - exact PatternFacts.search_no_literal.
  - intros pre tok rest Hpre T A R.
    rewrite PatternFacts.search_skips by exact Hpre.
    change ("list=" ++ tok ++ rest)%string
      with (String "l" ("ist=" ++ tok ++ rest))%string.
    cbn [Pattern.search].
    change (String "l" ("ist=" ++ tok ++ rest))%string
      with ("list=" ++ tok ++ rest)%string.
    now rewrite (PatternFacts.playlist_match_at_hit tok rest T A R).
Qed.

Lemma get_playlist_id_first_token_witness :
  get_playlist_id "https://youtu.be/x?list=&list=ABC123&index=2"
  = Some "ABC123"
  /\ get_playlist_id "https://www.youtube.com/playlist?list=ABC123&index=2"
     = Some "ABC123"
  /\ get_playlist_id "https://www.youtube.com/watch?v=dQw4w9WgXcQ" = None.
Proof.
  split; [|split].
  - apply (proj1 get_playlist_id_first_token
             "https://youtu.be/x?list=&" "ABC123" "&index=2");
      try reflexivity.
    intros a c b E Tc.
    do 25 (destruct a as [|? a];
           [exfalso; cbn in E;
            first [discriminate E
                  |inversion E; subst; vm_compute in Tc; discriminate Tc]
           |cbn in E; injection E as _ E]).
    cbn. lia.
  - apply (proj2 (proj2 (proj2 (proj2 get_playlist_id_first_token)))
             "https://www.youtube.com/playlist?" "ABC123" "&index=2");
      reflexivity.
  - apply (proj1 (proj2 (proj2 (proj2 get_playlist_id_first_token)))).
    reflexivity.
Defined.

(** C6 as stated fails: this URL contains [list=ABC123], and the extractor
    returns the longer token [ABC1234]. *)
Lemma get_playlist_id_longer_token :
  PyStr.contains "list=ABC123"
    "https://www.youtube.com/playlist?list=ABC1234" = true
  /\ get_playlist_id "https://www.youtube.com/playlist?list=ABC1234"
     = Some "ABC1234"
  /\ get_playlist_id "https://www.youtube.com/playlist?list=ABC1234"
     <> Some "ABC123".
Proof.
  split; [reflexivity|]. split; [reflexivity|].
  intros H. vm_compute in H. discriminate H.
Qed.
(** ** Traces *)

Module TraceFacts.

Lemma invocations_app (tr1 tr2 : list event) :
  invocations (tr1 ++ tr2) = (invocations tr1 + invocations tr2)%nat.
Proof. unfold invocations. now rewrite filter_app, length_app. Qed.

Lemma total_wait_app (tr1 tr2 : list event) :
  total_wait (tr1 ++ tr2) = total_wait tr1 + total_wait tr2.
Proof.
  unfold total_wait. induction tr1 as [|ev tr1 IH]; simpl; [reflexivity|].
  rewrite IH. ring.
Qed.

Lemma invoked_models_app (tr1 tr2 : list event) :
  invoked_models (tr1 ++ tr2) = invoked_models tr1 ++ invoked_models tr2.
Proof. apply flat_map_app. Qed.

Lemma no_success_app (tr1 tr2 : list event) :
  no_success (tr1 ++ tr2) = no_success tr1 && no_success tr2.
Proof. apply forallb_app. Qed.

Lemma invocations_invoked_models (tr : list event) :
  invocations tr = List.length (invoked_models tr).
Proof.
  unfold invocations, invoked_models.
  induction tr as [|ev tr IH]; simpl; [reflexivity|].
  destruct ev; simpl; auto.
Qed.

Lemma no_success_In (tr : list event) (m i t : string) :
  no_success tr = true -> ~ In (EvInvoke m i (Ret t)) tr.
Proof.
  unfold no_success. rewrite forallb_forall. intros H Hin.
  now specialize (H _ Hin).
Qed.

End TraceFacts.

(** ** [generate_with_gemini] *)

Section GeneratorFacts.
Context {svc : Services}.
Import TraceFacts.

(** An attempt is a call of the model. *)
Lemma attempt_call (m input : string) (w : World) :
  fst (attempt m input w) = call_outcome m input w.
Proof.
  unfold attempt, call_outcome.
  now destruct (generate_content m input w) as [[response|e] w1].
Qed.

(** One more iteration of the retry loop. *)
Lemma retry_loop_step (m input : string) (n : nat) (w : World) :
  retry_loop m input (S n) w =
  match attempt m input w with
  | (Ret t, w1) =>
      (Ret (Some (PyStr.strip t)), w1, [EvInvoke m input (Ret t)])
  | (Raise e, w1) =>
      if PyStr.contains "429" e then
        match delay_seconds_of e with
        | Raise x => (Raise x, w1, [EvInvoke m input (Raise e)])
        | Ret d =>
            match sleep_rejects d w1 with
            | Some x =>
                (Raise x, w1,
                 [EvInvoke m input (Raise e); EvWarning (RateLimitHit d)])
            | None =>
                let run := retry_loop m input n (sleep d w1) in
                (result run, world_of run,
                 EvInvoke m input (Raise e)
                   :: EvWarning (RateLimitHit d) :: EvSleep d :: trace run)
            end
        end
      else
        (Ret None, w1,
         [EvInvoke m input (Raise e); EvError (ModelFailed m e)])
  end.
Proof.
  cbn [retry_loop]. destruct (attempt m input w) as [[t|e] w1];
    [reflexivity|].
  destruct (PyStr.contains "429" e); [|reflexivity].
  destruct (delay_seconds_of e) as [d|x]; [|reflexivity].
  unfold time_sleep. destruct (sleep_rejects d w1); [reflexivity|].
  now destruct (retry_loop m input n (sleep d w1)) as [[res w2] tr].
Qed.

(** One more model of the list. *)
Lemma model_loop_step (m : string) (rest : list string) (input : string)
    (retries : Z) (w : World) :
  model_loop (m :: rest) input retries w =
  match GenerativeModel m w with
  | (Raise e, w1) => (Raise e, w1, [EvConstruct m])
  | (Ret _, w1) =>
      let run := retry_loop m input (Z.to_nat retries) w1 in
      match result run with
      | Raise e => (Raise e, world_of run, EvConstruct m :: trace run)
      | Ret (Some s) =>
          (Ret (Some s), world_of run, EvConstruct m :: trace run)
      | Ret None =>
          let run' := model_loop rest input retries (world_of run) in
          (result run', world_of run',
           EvConstruct m :: trace run ++ trace run')
      end
  end.
Proof.
  cbn [model_loop]. destruct (GenerativeModel m w) as [[u|e] w1];
    [|reflexivity].
  destruct (retry_loop m input (Z.to_nat retries) w1)
    as [[[[s|]|e] w2] tr]; try reflexivity.
  cbn [result trace world_of fst snd].
  now destruct (model_loop rest input retries w2) as [[r' w3] tr'].
Qed.

Lemma retry_loop_bound (m input : string) (n : nat) (w : World) :
  (invocations (trace (retry_loop m input n w)) <= n)%nat.
Proof.
  revert w; induction n as [|n IH]; intros w; [apply Nat.le_refl|].
  rewrite retry_loop_step.
  destruct (attempt m input w) as [[t|e] w1]; [cbn; lia|].
  destruct (PyStr.contains "429" e); [|cbn; lia].
  destruct (delay_seconds_of e) as [d|x]; [|cbn; lia].
  destruct (sleep_rejects d w1); [cbn; lia|].
  specialize (IH (sleep d w1)).
  unfold invocations, trace in *. cbn [snd filter is_invoke List.length]. lia.
Qed.

Lemma retry_loop_shape (m input : string) (n : nat) (w : World) :
  match result (retry_loop m input n w) with
  | Ret (Some s) =>
      exists tr0 t,
        trace (retry_loop m input n w) = tr0 ++ [EvInvoke m input (Ret t)]
        /\ s = PyStr.strip t /\ no_success tr0 = true
  | Ret None => no_success (trace (retry_loop m input n w)) = true
  | Raise x =>
      no_success (trace (retry_loop m input n w)) = true
      /\ exists err,
           In (EvInvoke m input (Raise err)) (trace (retry_loop m input n w))
           /\ handler_raises err x
  end.
Proof.
  revert w; induction n as [|n IH]; intros w; [reflexivity|].
  rewrite retry_loop_step.
  destruct (attempt m input w) as [[t|e] w1].
  - cbn [result trace fst snd]. exists [], t. auto.
  - destruct (PyStr.contains "429" e) eqn:C; [|reflexivity].
    destruct (delay_seconds_of e) as [d|x] eqn:D.
    + destruct (sleep_rejects d w1) as [x|] eqn:R.
      * cbn [result trace fst snd]. split; [reflexivity|].
        exists e. split; [now left|]. split; [exact C|]. right.
        exists d, w1. auto.
      * specialize (IH (sleep d w1)).
        unfold result, trace in *. cbn [fst snd] in *.
        destruct (fst (fst (retry_loop m input n (sleep d w1))))
          as [[s|]|x].
        -- destruct IH as (tr0 & t & E & Hs & Hn).
           exists (EvInvoke m input (Raise e)
                     :: EvWarning (RateLimitHit d) :: EvSleep d :: tr0), t.
           rewrite E. auto.
        -- exact IH.
        -- destruct IH as (Hn & err & Hin & Hr). split; [exact Hn|].
           exists err. split; [|exact Hr]. now do 3 right.
    + cbn [result trace fst snd]. split; [reflexivity|].
      exists e. split; [now left|]. split; [exact C|]. now left.
Qed.

Lemma model_loop_bound (names : list string) (input : string) (retries : Z)
    (w : World) :
  (invocations (trace (model_loop names input retries w))
   <= List.length names * Z.to_nat retries)%nat.
Proof.
  revert w; induction names as [|m rest IH]; intros w; [apply Nat.le_refl|].
  rewrite model_loop_step.
  destruct (GenerativeModel m w) as [[u|e] w1]; [|cbn; lia].
  cbn zeta.
  pose proof (retry_loop_bound m input (Z.to_nat retries) w1) as B.
  destruct (result (retry_loop m input (Z.to_nat retries) w1)) as [[s|]|e].
  - cbn [trace snd List.length Nat.mul] in *.
    change (invocations (EvConstruct m :: ?l)) with (invocations l). lia.
  - specialize (IH (world_of (retry_loop m input (Z.to_nat retries) w1))).
    cbn [trace snd List.length Nat.mul] in *.
    change (invocations (EvConstruct m :: ?l)) with (invocations l).
    rewrite invocations_app. lia.
  - cbn [trace snd List.length Nat.mul] in *.
    change (invocations (EvConstruct m :: ?l)) with (invocations l). lia.
Qed.

Lemma model_loop_shape (names : list string) (input : string) (retries : Z)
    (w : World) :
  match result (model_loop names input retries w) with
  | Ret (Some s) =>
      exists tr0 m t,
        In m names
        /\ trace (model_loop names input retries w)
           = tr0 ++ [EvInvoke m input (Ret t)]
        /\ s = PyStr.strip t /\ no_success tr0 = true
  | Ret None => no_success (trace (model_loop names input retries w)) = true
  | Raise e =>
      no_success (trace (model_loop names input retries w)) = true
      /\ ((exists m w0, In m names /\ fst (GenerativeModel m w0) = Raise e)
          \/ (exists m err,
                 In m names
                 /\ In (EvInvoke m input (Raise err))
                      (trace (model_loop names input retries w))
                 /\ handler_raises err e))
  end.
Proof.
  revert w; induction names as [|m rest IH]; intros w; [reflexivity|].
  rewrite model_loop_step.
  destruct (GenerativeModel m w) as [[u|e] w1] eqn:G.
  - cbn zeta.
    pose proof (retry_loop_shape m input (Z.to_nat retries) w1) as R.
    destruct (result (retry_loop m input (Z.to_nat retries) w1))
      as [[s|]|x].
    + destruct R as (tr0 & t & E & Hs & Hn).
      cbn [result trace fst snd]. exists (EvConstruct m :: tr0), m, t.
      rewrite E. cbn; auto.
    + specialize (IH (world_of (retry_loop m input (Z.to_nat retries) w1))).
      unfold result, trace, world_of in *. cbn [fst snd] in *.
      destruct (fst (fst (model_loop rest input retries
                            (snd (fst (retry_loop m input
                                         (Z.to_nat retries) w1))))))
        as [[s|]|e].
      * destruct IH as (tr0 & m' & t & Hin & E & Hs & Hn).
        exists (EvConstruct m
                  :: snd (retry_loop m input (Z.to_nat retries) w1) ++ tr0),
          m', t.
        rewrite E. split; [now right|]. split.
        { cbn. now rewrite app_assoc. }
        split; [exact Hs|].
        change (no_success (EvConstruct m :: ?l)) with (no_success l).
        rewrite no_success_app, R, Hn. reflexivity.
      * change (no_success (EvConstruct m :: ?l)) with (no_success l).
        rewrite no_success_app, R, IH. reflexivity.
      * destruct IH as (Hn & Hcause).
        change (no_success (EvConstruct m :: ?l)) with (no_success l).
        rewrite no_success_app, R, Hn. split; [reflexivity|].
        destruct Hcause as [(m' & w0 & Hin & E)|(m' & err & Hin & Hev & Hr)].
        -- left. exists m', w0. split; [now right|exact E].
        -- right. exists m', err. split; [now right|]. split; [|exact Hr].
           right. apply in_or_app. now right.
    + destruct R as (Hn & err & Hin & Hr).
      cbn [result trace fst snd]. split; [exact Hn|].
      right. exists m, err. split; [now left|]. split; [now right|exact Hr].
  - cbn [result trace fst snd]. split; [reflexivity|].
    left. exists m, w. split; [now left|]. now rewrite G.
Qed.

Lemma constructible_tail (m : string) (rest : list string) :
  constructible (m :: rest) -> constructible rest.
Proof. intros H m' w Hin. apply H. now right. Qed.

Lemma constructible_head (m : string) (rest : list string) (w : World) :
  constructible (m :: rest) ->
  GenerativeModel m w = (Ret tt, snd (GenerativeModel m w)).
Proof.
  intros H. specialize (H m w (or_introl eq_refl)).
  destruct (GenerativeModel m w) as [r w1]. cbn in *. now subst r.
Qed.

(** What a failing call makes of an attempt. *)
Lemma attempt_fails (P : exn -> Prop) (m input : string) (w : World) :
  every_call_fails P ->
  exists e, attempt m input w = (Raise e, snd (attempt m input w)) /\ P e.
Proof.
  intros H. destruct (H m input w) as (e & E & He).
  rewrite <- attempt_call in E. exists e. split; [|exact He].
  destruct (attempt m input w) as [r w1]. cbn in *. now subst r.
Qed.



(** The retry loop of a model whose attempts fail for another reason. *)
Lemma retry_loop_hard_failure (m input : string) (n : nat) (w : World) :
  every_call_fails (fun e => PyStr.contains "429" e = false) ->
  result (retry_loop m input (S n) w) = Ret None
  /\ total_wait (trace (retry_loop m input (S n) w)) = 0
  /\ invoked_models (trace (retry_loop m input (S n) w)) = [m].
Proof.
  intros H. rewrite retry_loop_step.
  destruct (attempt_fails _ m input w H) as (e & A & C).
  rewrite A, C. auto.
Qed.


Lemma model_loop_hard_failure (names : list string) (input : string)
    (retries : Z) (w : World) :
  0 < retries ->
  constructible names ->
  every_call_fails (fun e => PyStr.contains "429" e = false) ->
  result (model_loop names input retries w) = Ret None
  /\ total_wait (trace (model_loop names input retries w)) = 0
  /\ invoked_models (trace (model_loop names input retries w)) = names.
Proof.
  intros Hr Hc H.
  destruct (Z.to_nat retries) as [|n] eqn:N; [lia|].
  revert w; induction names as [|m rest IH]; intros w.
  - cbn. auto.
  - rewrite model_loop_step, (constructible_head _ _ _ Hc), N. cbn zeta.
    destruct (retry_loop_hard_failure m input n
                (snd (GenerativeModel m w)) H) as (R & T & I).
    rewrite R.
    destruct (IH (constructible_tail _ _ Hc)
                (world_of (retry_loop m input (S n)
                             (snd (GenerativeModel m w)))))
      as (R' & T' & I').
    unfold result, trace, world_of in *. cbn [fst snd].
    split; [exact R'|]. split.
    + change (total_wait (EvConstruct m :: ?l)) with (0 + total_wait l).
      rewrite total_wait_app, T, T'. reflexivity.
    + change (invoked_models (EvConstruct m :: ?l)) with (invoked_models l).
      rewrite invoked_models_app, I, I'. reflexivity.
Qed.

Lemma model_loop_no_attempts (names : list string) (input : string)
    (retries : Z) (w : World) :
  retries <= 0 ->
  constructible names ->
  result (model_loop names input retries w) = Ret None.
Proof.
  intros Hr Hc.
  assert (N : Z.to_nat retries = 0%nat) by lia.
  revert w; induction names as [|m rest IH]; intros w; [reflexivity|].
  rewrite model_loop_step, (constructible_head _ _ _ Hc), N. cbn.
  apply (IH (constructible_tail _ _ Hc)).
Qed.





End GeneratorFacts.

(** The counter of the counting services follows the invocations. *)
Section CountingFacts.
Context {svc : Services}.
Import TraceFacts.

Lemma counting_attempt (m input : string) (w : World) (n : nat) :
  snd (@attempt (counting svc) m input (w, n))
  = (snd (@attempt svc m input w), S n)
  /\ fst (@attempt (counting svc) m input (w, n))
     = fst (@attempt svc m input w).
Proof.
  unfold attempt. cbn.
  now destruct (@generate_content svc m input w) as [[response|e] w1].
Qed.

Lemma counting_constructible (names : list string) :
  @constructible svc names -> @constructible (counting svc) names.
Proof.
  intros H m [w n] Hin. specialize (H m w Hin). cbn.
  now destruct (@GenerativeModel svc m w) as [r w1].
Qed.

Lemma counting_calls (P : exn -> Prop) :
  @every_call_fails svc P -> @every_call_fails (counting svc) P.
Proof.
  intros H m input [w n]. destruct (H m input w) as (e & E & He).
  exists e. split; [|exact He]. unfold call_outcome in *. cbn.
  now destruct (@generate_content svc m input w) as [r w1].
Qed.

Lemma counting_retry_loop (m input : string) (k : nat) :
  forall (w : World) (n : nat),
    snd (world_of (@retry_loop (counting svc) m input k (w, n)))
    = (n + invocations (trace (@retry_loop (counting svc) m input k (w, n))))%nat.
Proof.
  induction k as [|k IH]; intros w n; [cbn; lia|].
  rewrite retry_loop_step.
  destruct (counting_attempt m input w n) as [Ew Er].
  destruct (@attempt (counting svc) m input (w, n)) as [r w1].
  cbn [fst snd] in Ew, Er. subst w1.
  destruct r as [t|e]; [cbn; lia|].
  destruct (PyStr.contains "429" e); [|cbn; lia].
  destruct (delay_seconds_of e) as [d|x]; [|cbn; lia].
  destruct (@sleep_rejects (counting svc) d
              (snd (@attempt svc m input w), S n)); [cbn; lia|].
  change (@sleep (counting svc) d (snd (@attempt svc m input w), S n))
    with (@sleep svc d (snd (@attempt svc m input w)), S n).
  specialize (IH (@sleep svc d (snd (@attempt svc m input w))) (S n)).
  unfold world_of, trace, invocations in *.
  cbn [fst snd filter is_invoke List.length]. rewrite IH. lia.
Qed.

Lemma counting_model_loop (names : list string) (input : string)
    (retries : Z) :
  forall (w : World) (n : nat),
    snd (world_of (@model_loop (counting svc) names input retries (w, n)))
    = (n + invocations
             (trace (@model_loop (counting svc) names input retries (w, n))))%nat.
Proof.
  induction names as [|m rest IH]; intros w n; [cbn; lia|].
  rewrite model_loop_step.
  change (@GenerativeModel (counting svc) m (w, n))
    with (let '(r, w') := @GenerativeModel svc m w in (r, (w', n))).
  destruct (@GenerativeModel svc m w) as [[u|e] w1]; [|cbn; lia].
  cbn zeta.
  pose proof (counting_retry_loop m input (Z.to_nat retries) w1 n) as R.
  destruct (result (@retry_loop (counting svc) m input (Z.to_nat retries)
                      (w1, n))) as [[s|]|e].
  - unfold world_of, trace in *. cbn [fst snd].
    change (invocations (EvConstruct m :: ?l)) with (invocations l).
    exact R.
  - destruct (world_of (@retry_loop (counting svc) m input
                          (Z.to_nat retries) (w1, n))) as [w2 n2] eqn:W.
    cbn [snd] in R. specialize (IH w2 n2).
    unfold world_of, trace in *. cbn [fst snd].
    change (invocations (EvConstruct m :: ?l)) with (invocations l).
    rewrite invocations_app, IH, R. lia.
  - unfold world_of, trace in *. cbn [fst snd].
    change (invocations (EvConstruct m :: ?l)) with (invocations l).
    exact R.
Qed.

(** Counting changes neither the result nor the trace nor the world. *)
Lemma counting_retry_loop_same (m input : string) (k : nat) :
  forall (w : World) (n : nat),
    let run := @retry_loop (counting svc) m input k (w, n) in
    let run0 := @retry_loop svc m input k w in
    result run = result run0
    /\ trace run = trace run0
    /\ fst (world_of run) = world_of run0.
Proof.
  induction k as [|k IH]; intros w n; [cbn; auto|].
  cbn zeta.
  rewrite (@retry_loop_step (counting svc)), (@retry_loop_step svc).
  destruct (counting_attempt m input w n) as [Ew Er].
  destruct (@attempt (counting svc) m input (w, n)) as [r w1].
  cbn [fst snd] in Ew, Er. subst w1 r.
  destruct (@attempt svc m input w) as [[t|e] w1]; cbn [fst snd]; [auto|].
  destruct (PyStr.contains "429" e); [|auto].
  destruct (delay_seconds_of e) as [d|x]; [|auto].
  change (@sleep_rejects (counting svc) d (w1, S n))
    with (@sleep_rejects svc d w1).
  destruct (@sleep_rejects svc d w1); [auto|].
  change (@sleep (counting svc) d (w1, S n)) with (@sleep svc d w1, S n).
  destruct (IH (@sleep svc d w1) (S n)) as (R & T & W).
  unfold result, trace, world_of in *. cbn [fst snd].
  rewrite R, T, W. auto.
Qed.

Lemma counting_model_loop_same (names : list string) (input : string)
    (retries : Z) :
  forall (w : World) (n : nat),
    let run := @model_loop (counting svc) names input retries (w, n) in
    let run0 := @model_loop svc names input retries w in
    result run = result run0
    /\ trace run = trace run0
    /\ fst (world_of run) = world_of run0.
Proof.
  induction names as [|m rest IH]; intros w n; [cbn; auto|].
  cbn zeta.
  rewrite (@model_loop_step (counting svc)), (@model_loop_step svc).
  change (@GenerativeModel (counting svc) m (w, n))
    with (let '(r, w') := @GenerativeModel svc m w in (r, (w', n))).
  destruct (@GenerativeModel svc m w) as [[u|e] w1]; [|cbn; auto].
  cbn zeta.
  destruct (counting_retry_loop_same m input (Z.to_nat retries) w1 n)
    as (R & T & W).
  rewrite R.
  destruct (result (@retry_loop svc m input (Z.to_nat retries) w1))
    as [[s|]|e].
  - unfold result, trace, world_of in *. cbn [fst snd]. rewrite T, W. auto.
  - destruct (world_of (@retry_loop (counting svc) m input
                          (Z.to_nat retries) (w1, n))) as [w2 n2] eqn:E.
    cbn [fst] in W. subst w2.
    destruct (IH (world_of (@retry_loop svc m input (Z.to_nat retries) w1))
                n2) as (R' & T' & W').
    unfold result, trace, world_of in *. cbn [fst snd].
    rewrite T, R', T', W'. auto.
  - unfold result, trace, world_of in *. cbn [fst snd]. rewrite T, W. auto.
Qed.

End CountingFacts.


Section GeneratorClaims.
Context {svc : Services}.
Import TraceFacts.



(** C3.  An invocation that returns a text ends the run: the routine
    returns that text stripped, the invocation is the last event of the
    trace and the only one that returned a text, so no further attempt is
    made and no later model is constructed or invoked.  In particular,
    when the first attempt on the first model is rate limited, its handler
    returns and the second attempt returns a text, the run consists of
    these two attempts and nothing else. *)
Theorem first_success_is_returned
    (prompt text : string) (retries : Z) :
  (forall (model_names : list string) (w : World) (m input t : string),
      let run := generate_with_gemini prompt text retries model_names w in
      In (EvInvoke m input (Ret t)) (trace run) ->
      result run = Ret (Some (PyStr.strip t))
      /\ In m model_names
      /\ input = (prompt ++ text)%string
      /\ exists tr0, trace run = tr0 ++ [EvInvoke m input (Ret t)]
                     /\ no_success tr0 = true)
  /\ (forall (m1 : string) (rest : list string) (w w1 w2 w3 : World)
             (e : exn) (t : string),
         2 <= retries ->
         GenerativeModel m1 w = (Ret tt, w1) ->
         attempt m1 (prompt ++ text) w1 = (Raise e, w2) ->
         PyStr.contains "429" e = true ->
         delay_seconds_of e = Ret (retry_delay_seconds e) ->
         sleep_rejects (retry_delay_seconds e) w2 = None ->
         attempt m1 (prompt ++ text) (sleep (retry_delay_seconds e) w2)
         = (Ret t, w3) ->
         generate_with_gemini prompt text retries (m1 :: rest) w
         = (Ret (Some (PyStr.strip t)), w3,
            [EvConstruct m1;
             EvInvoke m1 (prompt ++ text) (Raise e);
             EvWarning (RateLimitHit (retry_delay_seconds e));
             EvSleep (retry_delay_seconds e);
             EvInvoke m1 (prompt ++ text) (Ret t)])).
Proof.
  split.
  - intros model_names w m input t. cbn zeta. unfold generate_with_gemini.
    intros Hin.
    pose proof (model_loop_shape model_names (prompt ++ text) retries w)
      as Sh.
    destruct (result (model_loop model_names (prompt ++ text) retries w))
      as [[s|]|e].
    + destruct Sh as (tr0 & m' & t' & Hm & E & Hs & Hn).
      rewrite E in Hin. apply in_app_or in Hin as [Hin|Hin].
      * now apply no_success_In in Hin.
      * destruct Hin as [Hin|[]]. inversion Hin; subst m' input t'.
        subst s. repeat split; auto. exists tr0. auto.
    + now apply no_success_In in Hin.
    + destruct Sh as [Hn _]. now apply no_success_In in Hin.
  - intros m1 rest w w1 w2 w3 e t Hr G A1 C D Hs A2.
    unfold generate_with_gemini. rewrite model_loop_step, G. cbn zeta.
    destruct (Z.to_nat retries) as [|[|n]] eqn:N; [lia|lia|].
    rewrite retry_loop_step, A1, C, D, Hs. cbn zeta.
    rewrite retry_loop_step, A2. reflexivity.
Qed.

(** C4, as the code has it.  When every call of a model fails with an
    error that is not a rate limit, at least one attempt per model is
    allowed and the constructor returns for every model, the routine calls
    each model of the list once, in order, never sleeps, and returns
    [None]: [len(model_names)] invocations in all, which is also the
    number of calls of [generate_content] that the services received. *)
Theorem hard_failures_cost_one_attempt_per_model
    (prompt text : string) (retries : Z) (model_names : list string)
    (w : World) :
  0 < retries ->
  constructible model_names ->
  every_call_fails (fun e => PyStr.contains "429" e = false) ->
  let run := generate_with_gemini prompt text retries model_names w in
  let counted :=
    @generate_with_gemini (counting svc) prompt text retries model_names
      (w, 0%nat) in
  result run = Ret None
  /\ invocations (trace run) = List.length model_names
  /\ invoked_models (trace run) = model_names
  /\ total_wait (trace run) = 0
  /\ result counted = result run
  /\ trace counted = trace run
  /\ fst (world_of counted) = world_of run
  /\ snd (world_of counted) = List.length model_names.
Proof.
  intros Hr Hc H. cbn zeta. unfold generate_with_gemini.
  destruct (model_loop_hard_failure model_names (prompt ++ text) retries w
              Hr Hc H) as (R & T & I).
  destruct (counting_model_loop_same model_names (prompt ++ text) retries
              w 0%nat) as (R' & T' & W').
  pose proof (counting_model_loop model_names (prompt ++ text) retries
                w 0%nat) as N.
  rewrite T' in N. rewrite invocations_invoked_models, I in *.
  repeat split; auto.
Qed.

(** C5, as the code has it.  The routine is a total function of its
    arguments and of the answers of the services.  It invokes a model at
    most [len(model_names) * retries] times; with an empty list of models
    it invokes none and returns [None]; with [retries = 0] it invokes
    none, and returns [None] when the constructor returns for every
    model.  The invocations of the trace are the calls of
    [generate_content] that the services received. *)
Theorem generate_with_gemini_bounded
    (prompt text : string) (retries : Z) (model_names : list string)
    (w : World) :
  0 <= retries ->
  let run := generate_with_gemini prompt text retries model_names w in
  let counted :=
    @generate_with_gemini (counting svc) prompt text retries model_names
      (w, 0%nat) in
  Z.of_nat (invocations (trace run))
  <= Z.of_nat (List.length model_names) * retries
  /\ (model_names = [] ->
      invocations (trace run) = 0%nat /\ result run = Ret None)
  /\ (retries = 0 ->
      invocations (trace run) = 0%nat
      /\ (constructible model_names -> result run = Ret None))
  /\ result counted = result run
  /\ trace counted = trace run
  /\ snd (world_of counted) = invocations (trace run).
Proof.
  intros Hr. cbn zeta. unfold generate_with_gemini.
  pose proof (model_loop_bound model_names (prompt ++ text) retries w) as B.
  split; [|split; [|split]].
  - apply Nat2Z.inj_le in B. rewrite Nat2Z.inj_mul, Z2Nat.id in B by exact Hr.
    exact B.
  - intros ->. auto.
  - intros ->. split.
    + change (Z.to_nat 0) with 0%nat in B. lia.
    + intros Hc. now apply model_loop_no_attempts.
  - destruct (counting_model_loop_same model_names (prompt ++ text) retries
                w 0%nat) as (R' & T' & _).
    pose proof (counting_model_loop model_names (prompt ++ text) retries
                  w 0%nat) as N.
    rewrite T' in N. auto.
Qed.

End GeneratorClaims.

(** *** The generator on scripted services *)





Lemma first_success_is_returned_witness :
  result (@generate_with_gemini (scripted second_attempt_succeeds)
            "p" "t" 3 default_model_names 0%nat)
  = Ret (Some "notes of the lecture")
  /\ invoked_models
       (trace (@generate_with_gemini (scripted second_attempt_succeeds)
                 "p" "t" 3 default_model_names 0%nat))
     = ["gemini-1.5-flash"; "gemini-1.5-flash"].
Proof.
  split.
  - destruct (proj1 (@first_success_is_returned
                       (scripted second_attempt_succeeds) "p" "t" 3)
                default_model_names 0%nat "gemini-1.5-flash" "pt"
                padded_answer)
      as (R & _).
    + vm_compute. tauto.
    + rewrite R. vm_compute. reflexivity.
  - unfold default_model_names.
    rewrite (proj2 (@first_success_is_returned
                      (scripted second_attempt_succeeds) "p" "t" 3)
               "gemini-1.5-flash" ["gemini-1.5-pro"] 0%nat 0%nat 1%nat 2%nat
               rate_limited_2 padded_answer);
      try reflexivity; lia.
Defined.

Lemma hard_failures_cost_one_attempt_per_model_witness :
  @every_call_fails (scripted always_failing)
    (fun e => PyStr.contains "429" e = false)
  /\ result (@generate_with_gemini (scripted always_failing)
               "p" "t" 3 default_model_names 0%nat)
     = Ret None
  /\ invocations
       (trace (@generate_with_gemini (scripted always_failing)
                 "p" "t" 3 default_model_names 0%nat))
     = 2%nat
  /\ snd (world_of
            (@generate_with_gemini (counting (scripted always_failing))
               "p" "t" 3 default_model_names (0%nat, 0%nat)))
     = 2%nat.
Proof.
  assert (H : @every_call_fails (scripted always_failing)
                (fun e => PyStr.contains "429" e = false)).
  { intros m input w. exists "500 Internal error". split; reflexivity. }
  split; [exact H|].
  destruct (@hard_failures_cost_one_attempt_per_model
              (scripted always_failing) "p" "t" 3 default_model_names 0%nat)
    as (R & N & _ & _ & _ & _ & _ & K).
  - lia.
  - intros m w _. reflexivity.
  - exact H.
  - split; [exact R|]. split; [exact N|exact K].
Defined.

(** C4 as stated fails: with [retries = 0] every call of a model would fail
    with an error that is not a rate limit, and the routine returns [None]
    after no invocation at all, not after [len(model_names)]. *)
Lemma hard_failures_without_attempts :
  @every_call_fails (scripted always_failing)
    (fun e => PyStr.contains "429" e = false)
  /\ result (@generate_with_gemini (scripted always_failing)
               "p" "t" 0 default_model_names 0%nat)
     = Ret None
  /\ invocations
       (trace (@generate_with_gemini (scripted always_failing)
                 "p" "t" 0 default_model_names 0%nat))
     = 0%nat
  /\ invocations
       (trace (@generate_with_gemini (scripted always_failing)
                 "p" "t" 0 default_model_names 0%nat))
     <> List.length default_model_names.
Proof.
  split.
  { intros m input w. exists "500 Internal error". split; reflexivity. }
  split; [vm_compute; reflexivity|].
  split; [vm_compute; reflexivity|].
  intros H. vm_compute in H. discriminate H.
Qed.

Lemma generate_with_gemini_bounded_witness :
  Z.of_nat
    (invocations
       (trace (@generate_with_gemini (scripted always_rate_limited)
                 "p" "t" 3 default_model_names 0%nat)))
  <= 2 * 3
  /\ snd (world_of
            (@generate_with_gemini (counting (scripted always_rate_limited))
               "p" "t" 3 default_model_names (0%nat, 0%nat)))
     = 6%nat
  /\ @constructible (scripted always_rate_limited) default_model_names
  /\ result (@generate_with_gemini (scripted always_rate_limited)
               "p" "t" 0 default_model_names 0%nat)
     = Ret None.
Proof.
  destruct (@generate_with_gemini_bounded (scripted always_rate_limited)
              "p" "t" 3 default_model_names 0%nat)
    as (B & _ & _ & _ & _ & K); [lia|].
  destruct (@generate_with_gemini_bounded (scripted always_rate_limited)
              "p" "t" 0 default_model_names 0%nat)
    as (_ & _ & Z0 & _); [lia|].
  assert (Hc : @constructible (scripted always_rate_limited)
                 default_model_names)
    by (intros m w _; reflexivity).
  split; [exact B|].
  split; [etransitivity; [exact K|vm_compute; reflexivity]|].
  split; [exact Hc|].
  exact (proj2 (Z0 eq_refl) Hc).
Defined.

(** C5 as stated fails: with [retries = 0] the constructor is still called,
    and when it raises the routine raises, after no invocation. *)
Lemma zero_retries_still_construct :
  result (@generate_with_gemini (scripted broken_constructor)
            "p" "t" 0 default_model_names 0%nat)
  = Raise "model not available"
  /\ invocations
       (trace (@generate_with_gemini (scripted broken_constructor)
                 "p" "t" 0 default_model_names 0%nat))
     = 0%nat
  /\ trace (@generate_with_gemini (scripted broken_constructor)
              "p" "t" 0 default_model_names 0%nat)
     = [EvConstruct "gemini-1.5-flash"].
Proof. repeat split; vm_compute; reflexivity. Qed.
(** ** [extract_playlist_items] *)

Section PlaylistFacts.
Context {svc : Services}.

Lemma collect_items_complete (l : list PlaylistItem)
    (videos : list PlaylistVideo) :
  forallb has_parts l = true ->
  collect_items l videos = Ret (videos ++ videos_of l).
Proof.
  revert videos; induction l as [|item l IH]; intros videos H.
  - cbn. now rewrite app_nil_r.
  - cbn [forallb] in H. apply andb_true_iff in H as [Hi Hl].
    unfold has_parts in Hi. cbn [collect_items videos_of flat_map].
    change (flat_map _ l) with (videos_of l).
    destruct (contentDetails item) as [[v|]|], (snippet item) as [[t|]|];
      try discriminate; try (rewrite (IH _ Hl); reflexivity).
    destruct (PyStr.truthy v && PyStr.truthy t); rewrite (IH _ Hl).
    + now rewrite <- app_assoc.
    + reflexivity.
Qed.

Lemma videos_of_app (l1 l2 : list PlaylistItem) :
  videos_of (l1 ++ l2) = videos_of l1 ++ videos_of l2.
Proof. apply flat_map_app. Qed.

Lemma videos_of_all (l : list PlaylistItem) :
  forallb has_both l = true ->
  List.length (videos_of l) = List.length l.
Proof.
  induction l as [|item l IH]; [reflexivity|].
  cbn [forallb videos_of flat_map]. intros H.
  apply andb_true_iff in H as [Hi Hl]. unfold has_both in Hi.
  change (flat_map _ l) with (videos_of l).
  destruct (contentDetails item) as [[v|]|], (snippet item) as [[t|]|];
    try discriminate.
  rewrite Hi. cbn. now rewrite (IH Hl).
Qed.

(** The loop goes through the pages that carry a continuation token. *)
Lemma paging_loop_served (playlist_id : string) (w : World)
    (tok : option string) (ps : list Page) (w2 : World)
    (tok2 : option string) :
  pages_served playlist_id w tok ps w2 tok2 ->
  complete_pages ps ->
  forall (fuel : nat) (videos : list PlaylistVideo),
    paging_loop (List.length ps + fuel) playlist_id tok videos w =
    match paging_loop fuel playlist_id tok2
            (videos ++ videos_of (flat_map page_items ps)) w2 with
    | None => None
    | Some (res, w3, tr) =>
        Some (res, w3, page_requests playlist_id tok ps ++ tr)
    end.
Proof.
  induction 1 as [w tok|w tok p w1 ps w2 tok2 E T Hs IH];
    intros Hc fuel videos.
  - cbn. rewrite app_nil_r.
    now destruct (paging_loop fuel playlist_id tok videos w)
      as [[[res w3] tr]|].
  - inversion Hc as [|p' ps' Hp Hps]; subst.
    cbn [List.length Nat.add paging_loop]. rewrite E.
    change (match items p with Some l => l | None => [] end)
      with (page_items p).
    rewrite (collect_items_complete _ _ Hp), T, (IH Hps).
    cbn [flat_map]. rewrite videos_of_app, app_assoc.
    now destruct (paging_loop fuel playlist_id tok2 _ w2)
      as [[[res w3] tr]|].
Qed.

Lemma playlist_id_truthy (url playlist_id : string) :
  get_playlist_id url = Some playlist_id ->
  PyStr.truthy_opt (get_playlist_id url) = true.
Proof.
  intros H. rewrite H.
  now destruct (PatternFacts.search_sound _ _ H).
Qed.

(** C7, as the code has it.  When the URL carries a playlist ID, the
    listing source answers the pages [ps] with continuation tokens and then
    a page [last] without one, and every item of these pages carries its
    [contentDetails] and [snippet] parts, the enumerator requests exactly
    these pages, each with the token of the page before, and returns the
    [{videoId, title}] records of the items whose videoId and title are
    both there and not empty, in the order of the source; these are all
    the items when each has both. *)
Theorem extract_playlist_items_returns_all_pages
    (fuel : nat) (url playlist_id : string) (w w1 : World)
    (ps : list Page) (w2 : World) (tok : option string) (last : Page)
    (w3 : World) :
  get_playlist_id url = Some playlist_id ->
  build w = (Ret tt, w1) ->
  pages_served playlist_id w1 None ps w2 tok ->
  execute playlist_id tok w2 = (Ret last, w3) ->
  PyStr.truthy_opt (nextPageToken last) = false ->
  complete_pages (ps ++ [last]) ->
  (List.length ps < fuel)%nat ->
  extract_playlist_items fuel url w
  = Some (videos_of (flat_map page_items (ps ++ [last])), w3,
          page_requests playlist_id None (ps ++ [last]))
  /\ List.length (page_requests playlist_id None (ps ++ [last]))
     = S (List.length ps)
  /\ (forallb has_both (flat_map page_items (ps ++ [last])) = true ->
      List.length (videos_of (flat_map page_items (ps ++ [last])))
      = List.length (flat_map page_items (ps ++ [last]))).
Proof.
  intros Hid Hb Hs El Tl Hc Hf.
  apply Forall_app in Hc as [Hps Hl]. inversion Hl as [|? ? Hlast _]; subst.
  split; [|split].
  - unfold extract_playlist_items, fetch_playlist.
    rewrite (playlist_id_truthy _ _ Hid), Hid, Hb. cbn [negb].
    replace fuel with (List.length ps + S (fuel - S (List.length ps)))%nat
      by lia.
    rewrite (paging_loop_served _ _ _ _ _ _ Hs Hps).
    cbn [paging_loop]. rewrite El.
    change (match items last with Some l => l | None => [] end)
      with (page_items last).
    rewrite (collect_items_complete _ _ Hlast), Tl.
    rewrite flat_map_app, videos_of_app. cbn [flat_map app].
    rewrite !app_nil_r.
    f_equal. f_equal.
    clear - Hs. induction Hs as [w tok|w tok p w1 ps w2 tok2 E T Hs IH].
    + reflexivity.
    + cbn. now rewrite IH.
  - clear. generalize (@None string). induction ps as [|p ps IH]; intros t.
    + reflexivity.
    + cbn. now rewrite IH.
  - apply videos_of_all.
Qed.

(** C8.  A URL without a playlist ID, a failure to build the client, and
    a page request that raises, after any number of pages, all end in the
    same way: the failure is reported with [st.error] and the caller
    receives the empty list. *)
Theorem extract_playlist_items_failure_gives_empty
    (fuel : nat) (url : string) (w : World) :
  (get_playlist_id url = None ->
   extract_playlist_items fuel url w
   = Some ([], w, [EvError (PlaylistFetchFailed "Invalid playlist URL")]))
  /\ (forall (playlist_id : string) (e : exn) (w1 : World),
         get_playlist_id url = Some playlist_id ->
         build w = (Raise e, w1) ->
         extract_playlist_items fuel url w
         = Some ([], w1, [EvError (PlaylistFetchFailed e)]))
  /\ (forall (playlist_id : string) (w1 : World) (ps : list Page)
             (w2 : World) (tok : option string) (e : exn) (w3 : World),
         get_playlist_id url = Some playlist_id ->
         build w = (Ret tt, w1) ->
         pages_served playlist_id w1 None ps w2 tok ->
         complete_pages ps ->
         execute playlist_id tok w2 = (Raise e, w3) ->
         (List.length ps < fuel)%nat ->
         extract_playlist_items fuel url w
         = Some ([], w3,
                 page_requests playlist_id None ps
                   ++ [EvPageRequest playlist_id tok;
                       EvError (PlaylistFetchFailed e)])).
Proof.
  unfold extract_playlist_items, fetch_playlist. split; [|split].
  - intros ->. reflexivity.
  - intros playlist_id e w1 Hid Hb.
    rewrite (playlist_id_truthy _ _ Hid), Hb. reflexivity.
  - intros playlist_id w1 ps w2 tok e w3 Hid Hb Hs Hc Ee Hf.
    rewrite (playlist_id_truthy _ _ Hid), Hid, Hb. cbn [negb].
    replace fuel with (List.length ps + S (fuel - S (List.length ps)))%nat
      by lia.
    rewrite (paging_loop_served _ _ _ _ _ _ Hs Hc).
    cbn [paging_loop]. rewrite Ee. now rewrite <- app_assoc.
Qed.

End PlaylistFacts.

(** *** The enumerator on scripted listings *)

Lemma extract_playlist_items_returns_all_pages_witness :
  @extract_playlist_items (scripted two_pages) 5
    "https://www.youtube.com/playlist?list=PL123" 0%nat
  = Some ([{| videoId := "v1"; title := "Intro" |};
           {| videoId := "v3"; title := "Outro" |}], 0%nat,
          [EvPageRequest "PL123" None; EvPageRequest "PL123" (Some "T2")]).
Proof.
  apply (@extract_playlist_items_returns_all_pages (scripted two_pages) 5
           "https://www.youtube.com/playlist?list=PL123" "PL123" 0%nat 0%nat
           [{| items := Some [item_of (Some "v1") (Some "Intro");
                              item_of (Some "v2") None];
               nextPageToken := Some "T2" |}]
           0%nat (Some "T2")
           {| items := Some [item_of (Some "v3") (Some "Outro")];
              nextPageToken := None |}
           0%nat).
  - reflexivity.
  - reflexivity.
  - eapply served_more; [reflexivity|reflexivity|apply served_none].
  - reflexivity.
  - reflexivity.
  - repeat constructor.
  - cbn. lia.
Defined.

(** C7 as stated fails: an item that lacks its [snippet] part makes the
    enumeration fail, so the item before it, which has both a videoId and
    a title, is not returned. *)
Lemma item_without_snippet_empties_the_listing :
  @execute (scripted mixed_items) "PL123" None 0%nat
  = (Ret {| items := Some [item_of (Some "v1") (Some "Intro");
                           {| contentDetails := Some (Some "v2");
                              snippet := None |}];
            nextPageToken := None |}, 0%nat)
  /\ videos_of [item_of (Some "v1") (Some "Intro");
                {| contentDetails := Some (Some "v2"); snippet := None |}]
     = [{| videoId := "v1"; title := "Intro" |}]
  /\ @extract_playlist_items (scripted mixed_items) 5
       "https://www.youtube.com/playlist?list=PL123" 0%nat
     = Some ([], 0%nat,
             [EvPageRequest "PL123" None;
              EvError (PlaylistFetchFailed "'snippet'")]).
Proof. repeat split; vm_compute; reflexivity. Qed.

Lemma extract_playlist_items_failure_gives_empty_witness :
  @extract_playlist_items (scripted second_page_fails) 5
    "https://www.youtube.com/watch?v=abc" 0%nat
  = Some ([], 0%nat,
          [EvError (PlaylistFetchFailed "Invalid playlist URL")])
  /\ @extract_playlist_items (scripted second_page_fails) 5
       "https://www.youtube.com/playlist?list=PL123" 0%nat
     = Some ([], 0%nat,
             [EvPageRequest "PL123" None; EvPageRequest "PL123" (Some "T2");
              EvError (PlaylistFetchFailed "quotaExceeded")]).
Proof.
  split.
  - apply (proj1 (@extract_playlist_items_failure_gives_empty
                    (scripted second_page_fails) 5
                    "https://www.youtube.com/watch?v=abc" 0%nat)).
    reflexivity.
  - apply (proj2 (proj2 (@extract_playlist_items_failure_gives_empty
                           (scripted second_page_fails) 5
                           "https://www.youtube.com/playlist?list=PL123"
                           0%nat))
             "PL123" 0%nat
             [{| items := Some [item_of (Some "v1") (Some "Intro")];
                 nextPageToken := Some "T2" |}]
             0%nat (Some "T2") "quotaExceeded" 0%nat).
    + reflexivity.
    + reflexivity.
    + eapply served_more; [reflexivity|reflexivity|apply served_none].
    + repeat constructor.
    + reflexivity.
    + cbn. lia.
Defined.

(** ** Bundles *)

Module DictFacts.



Lemma dict_keys_set (k v : string) (d : dict) :
  dict_keys (dict_set k v d)
  = if in_dec string_dec k (dict_keys d) then dict_keys d
    else dict_keys d ++ [k].
Proof.
  induction d as [|[k' v'] d IH]; [reflexivity|].
  cbn [dict_set dict_keys map fst].
  destruct (String.eqb_spec k k') as [->|Hk].
  - cbn. destruct (string_dec k' k'); [reflexivity|congruence].
  - cbn [map fst]. fold (dict_keys (dict_set k v d)). rewrite IH.
    fold (dict_keys d). cbn [in_dec].
    destruct (in_dec string_dec k (dict_keys d)) as [Hin|Hnin].
    + destruct (in_dec string_dec k (k' :: dict_keys d)) as [_|N].
      * reflexivity.
      * exfalso. apply N. now right.
    + destruct (in_dec string_dec k (k' :: dict_keys d)) as [[E|Hin]|_].
      * congruence.
      * contradiction.
      * reflexivity.
Qed.





End DictFacts.

(** ** The processing loop *)

Section ProcessingFacts.
Context {svc : Services}.
Variable SUMMARY_PROMPT QA_PROMPT : string.
Import DictFacts.

Local Abbreviation step := (process_video SUMMARY_PROMPT QA_PROMPT).
Local Abbreviation loop := (process_videos SUMMARY_PROMPT QA_PROMPT).

Lemma warnings_are_quiet (shown : list notice) :
  invocations (map EvWarning shown) = 0%nat
  /\ constructed_models (map EvWarning shown) = []
  /\ total_wait (map EvWarning shown) = 0.
Proof. induction shown as [|n l IH]; cbn; auto. Qed.

Lemma extract_transcript_trace (video_id : string) (c : cache) (w : World) :
  exists shown, snd (extract_transcript video_id c w) = map EvWarning shown.
Proof.
  unfold extract_transcript.
  destruct (cache_lookup video_id c) as [[value shown]|].
  - now exists shown.
  - destruct (extract_transcript_body video_id w) as [[value w1] shown].
    now exists shown.
Qed.

Lemma generation_tab_touches (prompt transcript video_id video_title : string)
    (content_type : string) (announce failed : notice) (bundle : dict)
    (w : World) (d : dict) :
  result (generation_tab prompt transcript video_id video_title
            content_type announce failed bundle w) = Ret d ->
  touched video_title bundle d.
Proof.
  unfold generation_tab.
  destruct (generate_with_gemini prompt transcript default_retries
              default_model_names w) as [[[g|e] w1] tr]; [|discriminate].
  destruct (PyStr.truthy_opt g); cbn; intros H; inversion H.
  - right. eauto.
  - now left.
Qed.


Lemma process_video_touches (throttle_delay : Z) (total idx : nat)
    (vid : PlaylistVideo) (b : bundles) (c : cache) (w : World)
    (b' : bundles) :
  outcome_of (step throttle_delay total idx vid b c w) = Ret b' ->
  touched (title vid) (all_notes b) (all_notes b')
  /\ touched (title vid) (all_qas b) (all_qas b').
Proof.
  unfold process_video.
  destruct (extract_transcript (videoId vid) c w) as [[[tx c1] w1] tr1].
  destruct (negb (PyStr.truthy_opt tx)).
  - cbn. intros H; inversion H; subst. split; now left.
  - destruct (generation_tab SUMMARY_PROMPT _ _ _ _ _ _ (all_notes b) w1)
      as [[r2 w2] tr2] eqn:G2.
    destruct r2 as [notes|e]; [|discriminate].
    destruct (generation_tab QA_PROMPT _ _ _ _ _ _ (all_qas b) w2)
      as [[r3 w3] tr3] eqn:G3.
    destruct r3 as [qas|e]; [|discriminate].
    assert (T2 : touched (title vid) (all_notes b) notes)
      by (eapply generation_tab_touches; rewrite G2; reflexivity).
    assert (T3 : touched (title vid) (all_qas b) qas)
      by (eapply generation_tab_touches; rewrite G3; reflexivity).
    destruct ((0 <? throttle_delay) && (Z.of_nat idx <? Z.of_nat total - 1));
      cbn; intros H; inversion H; subst; cbn; auto.
Qed.


(** One more video of the selection. *)
Lemma process_videos_step (throttle_delay : Z) (total idx : nat)
    (vid : PlaylistVideo) (rest : list PlaylistVideo) (b : bundles)
    (c : cache) (w : World) :
  outcome_of (loop throttle_delay total idx (vid :: rest) b c w) =
  match step throttle_delay total idx vid b c w with
  | (Ret b1, c1, w1, _) =>
      outcome_of (loop throttle_delay total (S idx) rest b1 c1 w1)
  | (Raise e, _, _, _) => Raise e
  end.
Proof.
  cbn [process_videos].
  destruct (step throttle_delay total idx vid b c w)
    as [[[[b1|e] c1] w1] tr]; [|reflexivity].
  now destruct (loop throttle_delay total (S idx) rest b1 c1 w1)
    as [[[r' c2] w2] tr'].
Qed.


(** A property of the bundles that every step keeps is kept by the loop. *)
Lemma process_videos_invariant (P : bundles -> Prop)
    (Q : PlaylistVideo -> Prop) (throttle_delay : Z) (total : nat) :
  (forall idx vid b c w b',
      Q vid -> P b ->
      outcome_of (step throttle_delay total idx vid b c w) = Ret b' ->
      P b') ->
  forall vids, Forall Q vids ->
  forall idx b c w b',
    P b ->
    outcome_of (loop throttle_delay total idx vids b c w) = Ret b' ->
    P b'.
Proof.
  intros Hstep vids HQ.
  induction HQ as [|vid rest Hv Hrest IH]; intros idx b c w b' HP H.
  - cbn in H. inversion H; now subst.
  - rewrite process_videos_step in H.
    destruct (step throttle_delay total idx vid b c w)
      as [[[[b1|e] c1] w1] tr] eqn:E; [|discriminate].
    apply (IH _ _ _ _ _ (Hstep idx vid b c w b1 Hv HP
                           ltac:(rewrite E; reflexivity)) H).
Qed.



(** C9.  A transcript that is the empty string is handled as an absent
    one: the video is skipped with the notice, no model is constructed or
    invoked and nothing sleeps, and both bundles are left as they were. *)
Theorem empty_transcript_is_skipped
    (throttle_delay : Z) (total idx : nat) (vid : PlaylistVideo)
    (b : bundles) (c : cache) (w : World)
    (transcript : option string) (c1 : cache) (w1 : World)
    (tr1 : list event) :
  extract_transcript (videoId vid) c w = (transcript, c1, w1, tr1) ->
  transcript = Some EmptyString \/ transcript = None ->
  let run := step throttle_delay total idx vid b c w in
  run = (Ret b, c1, w1,
         [EvShow Divider;
          EvShow (Subheader (title vid) (Z.of_nat idx + 1) (Z.of_nat total));
          EvShow (WatchLink (videoId vid));
          EvShow (Thumbnail (videoId vid))]
           ++ tr1 ++ [EvWarning NoTranscriptSkipping])
  /\ invocations (trace run) = 0%nat
  /\ constructed_models (trace run) = []
  /\ total_wait (trace run) = 0.
Proof.
  intros E Hempty. cbn zeta.
  assert (R : step throttle_delay total idx vid b c w
              = (Ret b, c1, w1,
                 [EvShow Divider;
                  EvShow (Subheader (title vid) (Z.of_nat idx + 1)
                            (Z.of_nat total));
                  EvShow (WatchLink (videoId vid));
                  EvShow (Thumbnail (videoId vid))]
                   ++ tr1 ++ [EvWarning NoTranscriptSkipping])).
  { unfold process_video. rewrite E.
    destruct Hempty as [->| ->]; reflexivity. }
  rewrite R. split; [reflexivity|].
  destruct (extract_transcript_trace (videoId vid) c w) as [shown Hs].
  rewrite E in Hs. cbn [snd] in Hs. subst tr1.
  destruct (warnings_are_quiet shown) as (I & C & T).
  unfold trace. cbn [snd app].
  change (invocations (?a :: ?b :: ?c :: ?d :: ?l))
    with (invocations l) at 1.
  cbn [constructed_models flat_map app].
  change (flat_map _ ?l) with (constructed_models l).
  cbn [total_wait fold_right slept].
  change (fold_right _ 0 ?l) with (total_wait l).
  rewrite TraceFacts.invocations_app, TraceFacts.total_wait_app, I, T.
  unfold constructed_models. rewrite flat_map_app.
  fold (constructed_models (map EvWarning shown)). rewrite C.
  auto.
Qed.


End ProcessingFacts.

(** *** The processing loop on scripted services *)

Lemma empty_transcript_is_skipped_witness :
  @extract_transcript (scripted empty_transcript) "v1" [] 0%nat
  = (Some EmptyString, [("v1", (Some EmptyString, []))], 0%nat, [])
  /\ @process_video (scripted empty_transcript) "notes: " "questions: "
       10 2 0 {| videoId := "v1"; title := "Lecture" |}
       {| all_notes := []; all_qas := [] |} [] 0%nat
     = (Ret {| all_notes := []; all_qas := [] |},
        [("v1", (Some EmptyString, []))], 0%nat,
        [EvShow Divider; EvShow (Subheader "Lecture" 1 2);
         EvShow (WatchLink "v1"); EvShow (Thumbnail "v1");
         EvWarning NoTranscriptSkipping]).
Proof.
  split; [reflexivity|].
  apply (@empty_transcript_is_skipped (scripted empty_transcript)
           "notes: " "questions: " 10 2 0
           {| videoId := "v1"; title := "Lecture" |}
           {| all_notes := []; all_qas := [] |} [] 0%nat
           (Some EmptyString) [("v1", (Some EmptyString, []))] 0%nat []).
  - reflexivity.
  - now left.
Defined.

(** * Further properties *)

(** ** [str.strip] *)

Module StripFacts.
Import PyStr.

Lemma lstrip_stops (s : string) : stops is_space (lstrip s) = true.
Proof.
  induction s as [|c s IH]; [reflexivity|]. cbn [lstrip].
  destruct (is_space c) eqn:E; [exact IH|]. cbn. now rewrite E.
Qed.

Lemma lstrip_fixed (s : string) : stops is_space s = true -> lstrip s = s.
Proof.
  destruct s as [|c s]; [reflexivity|]. cbn. intros H.
  apply negb_true_iff in H. now rewrite H.
Qed.

Lemma lstrip_empty (s : string) :
  lstrip s = EmptyString <-> all_chars is_space s = true.
Proof.
  induction s as [|c s IH]; cbn; [tauto|].
  destruct (is_space c); cbn; [exact IH|]. split; discriminate.
Qed.

Lemma rstrip_empty (s : string) :
  rstrip s = EmptyString <-> all_chars is_space s = true.
Proof.
  induction s as [|c s IH]; cbn; [tauto|].
  destruct (rstrip s) as [|c' r].
  - destruct (is_space c); cbn; [tauto|]. split; discriminate.
  - split; [discriminate|]. intros H. apply andb_true_iff in H as [_ H].
    apply IH in H. discriminate.
Qed.

Lemma rstrip_idempotent (s : string) : rstrip (rstrip s) = rstrip s.
Proof.
  induction s as [|c s IH]; [reflexivity|]. cbn [rstrip].
  destruct (rstrip s) as [|c' r] eqn:E.
  - destruct (is_space c) eqn:Ec; [reflexivity|]. cbn. now rewrite Ec.
  - cbn [rstrip] in *. now rewrite IH.
Qed.

(** What [lstrip] removes is at the head: a string without white space at
    its end keeps that. *)
Lemma rstrip_lstrip_fixed (r : string) :
  rstrip r = r -> rstrip (lstrip r) = lstrip r.
Proof.
  induction r as [|c r IH]; [reflexivity|]. intros H. cbn [lstrip].
  destruct (is_space c) eqn:Ec; [|exact H].
  apply IH. cbn [rstrip] in H.
  destruct (rstrip r) as [|c' r'] eqn:E.
  - rewrite Ec in H. discriminate.
  - now inversion H.
Qed.

End StripFacts.

(** The text that [strip] returns has no white space at its head or at its
    end, stripping it again changes nothing, and it is empty exactly when
    the text consists of white space. *)
Theorem strip_is_trimmed (t : string) :
  PyStr.lstrip (PyStr.strip t) = PyStr.strip t
  /\ PyStr.rstrip (PyStr.strip t) = PyStr.strip t
  /\ PyStr.strip (PyStr.strip t) = PyStr.strip t
  /\ (PyStr.strip t = EmptyString
      <-> PyStr.all_chars PyStr.is_space t = true).
Proof.
  unfold PyStr.strip.
  assert (L : PyStr.lstrip (PyStr.lstrip (PyStr.rstrip t))
              = PyStr.lstrip (PyStr.rstrip t))
    by (apply StripFacts.lstrip_fixed, StripFacts.lstrip_stops).
  assert (R : PyStr.rstrip (PyStr.lstrip (PyStr.rstrip t))
              = PyStr.lstrip (PyStr.rstrip t))
    by (apply StripFacts.rstrip_lstrip_fixed, StripFacts.rstrip_idempotent).
  split; [exact L|]. split; [exact R|]. split; [now rewrite R|].
  rewrite StripFacts.lstrip_empty. split.
  - intros H. apply StripFacts.rstrip_empty.
    apply StripFacts.rstrip_empty in H.
    now rewrite StripFacts.rstrip_idempotent in H.
  - intros H. apply StripFacts.rstrip_empty in H. now rewrite H.
Qed.

(** ** The suggested delay *)

Module DelayFacts.
Import PyStr PyStrFacts Pattern.


Lemma search_found {A : Type} (match_at : string -> option A) (s : string)
    (a : A) :
  search match_at s = Some a -> exists s', match_at s' = Some a.
Proof.
  induction s as [|c s IH]; cbn [search].
  - destruct (match_at "") eqn:E; [|discriminate].
    intros H; inversion H; subst. eauto.
  - destruct (match_at (String c s)) eqn:E.
    + intros H; inversion H; subst. eauto.
    + exact IH.
Qed.

Lemma retry_delay_match_at_digits (s digits : string) :
  retry_delay_match_at s = Some digits ->
  truthy digits = true /\ all_chars is_digit digits = true.
Proof.
  unfold retry_delay_match_at.
  destruct (strip_prefix "retry_delay" s) as [r1|]; [|discriminate].
  destruct (strip_prefix "{" (snd (span is_space r1))) as [r2|];
    [|discriminate].
  destruct (strip_prefix "seconds:" (snd (span is_space r2))) as [r3|];
    [|discriminate].
  destruct (truthy (fst (span is_digit (snd (span is_space r3))))) eqn:T;
    [|discriminate].
  intros H; inversion H; subst. split; [exact T|apply span_all].
Qed.


Lemma digit_value_nonneg (c : ascii) :
  is_digit c = true -> 0 <= digit_value c <= 9.
Proof.
  unfold is_digit, digit_value. intros H.
  apply andb_true_iff in H as [H1 H2].
  apply Nat.leb_le in H1, H2. lia.
Qed.

Lemma fold_digits_nonneg (s : string) (acc : Z) :
  0 <= acc -> all_chars is_digit s = true ->
  0 <= fold_left (fun a c => 10 * a + digit_value c)
         (list_ascii_of_string s) acc.
Proof.
  revert acc; induction s as [|c s IH]; intros acc Hacc H;
    cbn [list_ascii_of_string fold_left all_chars] in *; [exact Hacc|].
  apply andb_true_iff in H as [Hc Hs]. apply IH; [|exact Hs].
  pose proof (digit_value_nonneg c Hc). lia.
Qed.

Lemma int_of_digits_nonneg (s : string) :
  all_chars is_digit s = true -> 0 <= int_of_digits s.
Proof. apply fold_digits_nonneg. lia. Qed.





End DelayFacts.





(** ** More on [generate_with_gemini] *)

Module WaitFacts.


Lemma delay_nonneg (err_str : string) : 0 <= retry_delay_seconds err_str.
Proof.
  unfold retry_delay_seconds.
  destruct (Pattern.search Pattern.retry_delay_match_at err_str)
    as [digits|] eqn:E; [|lia].
  apply DelayFacts.search_found in E as [s' E].
  apply DelayFacts.retry_delay_match_at_digits in E as [_ D].
  now apply DelayFacts.int_of_digits_nonneg.
Qed.

Lemma suggested_wait_nonneg (ev : event) : 0 <= suggested_wait ev.
Proof.
  destruct ev as [| m i [t|e] | | | | | |]; cbn [suggested_wait]; try lia.
  destruct (PyStr.contains "429" e); [apply delay_nonneg|lia].
Qed.

Lemma suggested_waits_nonneg (tr : list event) : 0 <= suggested_waits tr.
Proof.
  unfold suggested_waits. induction tr as [|ev tr IH]; cbn [fold_right];
    [lia|].
  pose proof (suggested_wait_nonneg ev). lia.
Qed.

End WaitFacts.

Section GeneratorMore.
Context {svc : Services}.
Import TraceFacts WaitFacts.




Lemma retry_loop_events (m input : string) (n : nat) (w : World) :
  constructed_models (trace (retry_loop m input n w)) = []
  /\ (forall m' i r, In (EvInvoke m' i r) (trace (retry_loop m input n w)) ->
                     m' = m /\ i = input).
Proof.
  revert w; induction n as [|n IH]; intros w.
  - split; [reflexivity|]. intros m' i r [].
  - rewrite retry_loop_step.
    destruct (attempt m input w) as [[t|e] w1].
    + split; [reflexivity|]. intros m' i r [H|[]]. now inversion H.
    + destruct (PyStr.contains "429" e).
      * destruct (delay_seconds_of e) as [d|x].
        -- destruct (sleep_rejects d w1).
           ++ split; [reflexivity|].
              intros m' i r [H|[H|[]]]; [now inversion H|discriminate].
           ++ destruct (IH (sleep d w1)) as [C I].
              unfold trace in *. cbn [snd]. split; [exact C|].
              intros m' i r [H|[H|[H|H]]]; try discriminate.
              ** now inversion H.
              ** now apply (I m' i r).
        -- split; [reflexivity|]. intros m' i r [H|[]]. now inversion H.
      * split; [reflexivity|].
        intros m' i r [H|[H|[]]]; [now inversion H|discriminate].
Qed.

Lemma constructed_models_app (tr1 tr2 : list event) :
  constructed_models (tr1 ++ tr2)
  = constructed_models tr1 ++ constructed_models tr2.
Proof. apply flat_map_app. Qed.

Lemma model_loop_order (names : list string) (input : string) (retries : Z)
    (w : World) :
  (exists rest,
      names = constructed_models (trace (model_loop names input retries w))
                ++ rest)
  /\ (forall m i r,
         In (EvInvoke m i r) (trace (model_loop names input retries w)) ->
         In m (constructed_models (trace (model_loop names input retries w)))
         /\ i = input).
Proof.
  revert w; induction names as [|m rest IH]; intros w.
  - split; [now exists []|]. intros m i r [].
  - rewrite model_loop_step.
    destruct (GenerativeModel m w) as [[u|e] w1].
    + cbn zeta.
      destruct (retry_loop_events m input (Z.to_nat retries) w1) as [C I].
      assert (Stop :
        (exists rest0,
            m :: rest
            = constructed_models
                (EvConstruct m
                   :: trace (retry_loop m input (Z.to_nat retries) w1))
                ++ rest0)
        /\ (forall m' i r,
               In (EvInvoke m' i r)
                  (EvConstruct m
                     :: trace (retry_loop m input (Z.to_nat retries) w1)) ->
               In m' (constructed_models
                        (EvConstruct m
                           :: trace (retry_loop m input (Z.to_nat retries)
                                       w1)))
               /\ i = input)).
      { change (constructed_models (EvConstruct m :: ?l))
          with (m :: constructed_models l).
        rewrite C. split; [now exists rest|].
        intros m' i r [H|H]; [discriminate|].
        destruct (I m' i r H) as [-> ->]. split; [now left|reflexivity]. }
      destruct (result (retry_loop m input (Z.to_nat retries) w1))
        as [[s|]|e].
      * exact Stop.
      * destruct (IH (world_of (retry_loop m input (Z.to_nat retries) w1)))
          as [[rest' E] I'].
        unfold trace, world_of in *. cbn [snd].
        change (constructed_models (EvConstruct m :: ?l))
          with (m :: constructed_models l).
        rewrite constructed_models_app, C. cbn [app]. split.
        -- exists rest'. now rewrite <- E.
        -- intros m' i r [H|H]; [discriminate|].
           apply in_app_or in H as [H|H].
           ++ destruct (I m' i r H) as [-> ->]. split; [now left|reflexivity].
           ++ destruct (I' m' i r H) as [Hin ->]. split; [now right|reflexivity].
      * exact Stop.
    + unfold trace. cbn [snd]. split.
      * now exists rest.
      * intros m' i r [H|[]]. discriminate.
Qed.

(** The models are constructed in the order of the list, without gaps: the
    constructed ones are a prefix of [model_names].  Every invocation is
    made on a model that was constructed, with [prompt + text] as its
    input. *)
Theorem models_are_tried_in_order
    (prompt text : string) (retries : Z) (model_names : list string)
    (w : World) :
  let run := generate_with_gemini prompt text retries model_names w in
  (exists rest, model_names = constructed_models (trace run) ++ rest)
  /\ (forall m input r,
         In (EvInvoke m input r) (trace run) ->
         In m (constructed_models (trace run))
         /\ input = (prompt ++ text)%string).
Proof. cbn zeta. unfold generate_with_gemini. apply model_loop_order. Qed.

(** Fallback.  When the first attempt on the first model fails with an
    error that is not a rate limit, the remaining attempts on that model
    are given up, the failure is reported, and the second model is tried;
    when its first attempt returns a text, that text, stripped, is the
    result: two invocations and no sleep. *)
Theorem hard_failure_falls_back_to_next_model
    (prompt text : string) (retries : Z) (m1 m2 : string)
    (rest : list string) (w w1 w2 w3 w4 : World) (e : exn) (t : string) :
  1 <= retries ->
  GenerativeModel m1 w = (Ret tt, w1) ->
  attempt m1 (prompt ++ text) w1 = (Raise e, w2) ->
  PyStr.contains "429" e = false ->
  GenerativeModel m2 w2 = (Ret tt, w3) ->
  attempt m2 (prompt ++ text) w3 = (Ret t, w4) ->
  generate_with_gemini prompt text retries (m1 :: m2 :: rest) w
  = (Ret (Some (PyStr.strip t)), w4,
     [EvConstruct m1;
      EvInvoke m1 (prompt ++ text) (Raise e);
      EvError (ModelFailed m1 e);
      EvConstruct m2;
      EvInvoke m2 (prompt ++ text) (Ret t)]).
Proof.
  intros Hr G1 A1 C G2 A2. unfold generate_with_gemini.
  destruct (Z.to_nat retries) as [|n] eqn:N; [lia|].
  rewrite model_loop_step, G1, N. cbn zeta.
  rewrite retry_loop_step, A1, C. cbn [result trace world_of fst snd].
  rewrite model_loop_step, G2, N. cbn zeta.
  rewrite retry_loop_step, A2. reflexivity.
Qed.

(** The text that the routine returns has no white space at its head or at
    its end. *)
Theorem returned_text_is_trimmed
    (prompt text : string) (retries : Z) (model_names : list string)
    (w : World) (s : string) :
  result (generate_with_gemini prompt text retries model_names w)
  = Ret (Some s) ->
  PyStr.lstrip s = s /\ PyStr.rstrip s = s /\ PyStr.strip s = s.
Proof.
  unfold generate_with_gemini. intros H.
  pose proof (model_loop_shape model_names (prompt ++ text) retries w) as Sh.
  rewrite H in Sh. destruct Sh as (tr0 & m & t & _ & _ & -> & _).
  destruct (strip_is_trimmed t) as (L & R & I & _). auto.
Qed.

End GeneratorMore.

Lemma hard_failure_falls_back_to_next_model_witness :
  @generate_with_gemini (scripted fallback_answers) "p" "t" 3
    default_model_names 0%nat
  = (Ret (Some "notes of the lecture"), 2%nat,
     [EvConstruct "gemini-1.5-flash";
      EvInvoke "gemini-1.5-flash" "pt" (Raise "500 Internal error");
      EvError (ModelFailed "gemini-1.5-flash" "500 Internal error");
      EvConstruct "gemini-1.5-pro";
      EvInvoke "gemini-1.5-pro" "pt" (Ret padded_answer)]).
Proof.
  refine (@hard_failure_falls_back_to_next_model (scripted fallback_answers)
            "p" "t" 3 "gemini-1.5-flash" "gemini-1.5-pro" []
            0%nat 0%nat 1%nat 1%nat 2%nat "500 Internal error" padded_answer
            _ _ _ _ _ _);
    try reflexivity; lia.
Defined.

Lemma returned_text_is_trimmed_witness :
  result (@generate_with_gemini (scripted second_attempt_succeeds)
            "p" "t" 3 default_model_names 0%nat)
  = Ret (Some "notes of the lecture")
  /\ PyStr.strip "notes of the lecture" = "notes of the lecture".
Proof.
  split; [reflexivity|].
  apply (@returned_text_is_trimmed (scripted second_attempt_succeeds)
           "p" "t" 3 default_model_names 0%nat "notes of the lecture").
  reflexivity.
Defined.

Lemma models_are_tried_in_order_witness :
  In "gemini-1.5-flash"
    (constructed_models
       (trace (@generate_with_gemini (scripted second_attempt_succeeds)
                 "p" "t" 3 default_model_names 0%nat))).
Proof.
  apply (proj2 (@models_are_tried_in_order (scripted second_attempt_succeeds)
                  "p" "t" 3 default_model_names 0%nat)
           "gemini-1.5-flash" "pt" (Ret padded_answer)).
  vm_compute. tauto.
Defined.


(** In a run that [time.sleep] ends, the delay of the last rate-limit
    error is not slept. *)
Lemma rejected_delay_is_not_slept :
  total_wait
    (trace (@generate_with_gemini (scripted delay_too_long)
              "p" "t" 3 default_model_names 0%nat))
  = 0
  /\ suggested_waits
       (trace (@generate_with_gemini (scripted delay_too_long)
                 "p" "t" 3 default_model_names 0%nat))
     = 9223372037.
Proof. split; vm_compute; reflexivity. Qed.

(** ** More on [extract_transcript] *)

Section TranscriptMore.
Context {svc : Services}.

Lemma cache_lookup_head (video_id : string)
    (entry : option string * list notice) (c : cache) :
  cache_lookup video_id ((video_id, entry) :: c) = Some entry.
Proof. cbn. now rewrite String.eqb_refl. Qed.

Lemma extract_transcript_cache (video_id : string) (c : cache) (w : World) :
  let c1 := snd (fst (fst (extract_transcript video_id c w))) in
  forall k entry, cache_lookup k c = Some entry ->
                  cache_lookup k c1 = Some entry.
Proof.
  cbn zeta. intros k entry H. unfold extract_transcript.
  destruct (cache_lookup video_id c) as [[value shown]|] eqn:L; [exact H|].
  destruct (extract_transcript_body video_id w) as [[value w1] shown].
  cbn. destruct (String.eqb_spec k video_id) as [->|_]; [congruence|exact H].
Qed.

(** Memoization.  After a call for a video, a call for the same video, in
    any state of the world, returns the same value without asking the
    transcript source: the world and the store are left as they are. *)
Theorem extract_transcript_is_memoized
    (video_id : string) (c : cache) (w : World)
    (value : option string) (c1 : cache) (w1 : World) (tr : list event)
    (w' : World) :
  extract_transcript video_id c w = (value, c1, w1, tr) ->
  fst (extract_transcript video_id c1 w') = (value, c1, w').
Proof.
  unfold extract_transcript.
  destruct (cache_lookup video_id c) as [[v shown]|] eqn:L.
  - intros H; inversion H; subst. now rewrite L.
  - destruct (extract_transcript_body video_id w) as [[v w2] shown].
    intros H; inversion H; subst. now rewrite cache_lookup_head.
Qed.

Lemma concat_empty (l : list string) :
  String.concat " " l = EmptyString <-> l = [] \/ l = [EmptyString].
Proof.
  destruct l as [|x [|y l]]; cbn.
  - tauto.
  - split; [intros ->; now right|]. intros [H|H]; [discriminate|].
    now inversion H.
  - split.
    + destruct x; discriminate.
    + intros [H|H]; discriminate.
Qed.

(** The segments of a fetched transcript are joined with single spaces, so
    the transcript is the empty string, and the video is skipped, exactly
    when the source returned no segment or one segment with an empty
    text. *)
Theorem fetched_transcript_is_empty_iff
    (video_id : string) (c : cache) (w w1 : World) (segments : list Segment) :
  cache_lookup video_id c = None ->
  get_transcript video_id w = (Fetched segments, w1) ->
  extract_transcript video_id c w
  = (Some (String.concat " " (map seg_text segments)),
     (video_id, (Some (String.concat " " (map seg_text segments)), [])) :: c,
     w1, [])
  /\ (PyStr.truthy (String.concat " " (map seg_text segments)) = false
      <-> segments = [] \/ map seg_text segments = [EmptyString]).
Proof.
  intros L G. split.
  - unfold extract_transcript, extract_transcript_body. now rewrite L, G.
  - destruct (concat_empty (map seg_text segments)) as [H1 H2]. split.
    + intros T.
      destruct (String.concat " " (map seg_text segments)); [|discriminate].
      destruct (H1 eq_refl) as [E|E]; [left|now right].
      now destruct segments.
    + intros [->|E]; [reflexivity|]. now rewrite H2 by now right.
Qed.

(** A source error other than a disabled or missing transcript is shown as
    a warning and gives [None]; that [None] is remembered like a transcript:
    a later call for the video returns it without asking the source
    again. *)
Theorem transcript_error_is_remembered
    (video_id : string) (c : cache) (w w1 w' : World) (e : exn) :
  cache_lookup video_id c = None ->
  get_transcript video_id w = (FetchError e, w1) ->
  let c1 := (video_id, (None, [TranscriptError video_id e])) :: c in
  extract_transcript video_id c w
  = (None, c1, w1, [EvWarning (TranscriptError video_id e)])
  /\ fst (extract_transcript video_id c1 w') = (None, c1, w').
Proof.
  intros L G. cbn zeta. split.
  - unfold extract_transcript, extract_transcript_body. now rewrite L, G.
  - unfold extract_transcript. now rewrite cache_lookup_head.
Qed.

End TranscriptMore.

Lemma extract_transcript_is_memoized_witness :
  fst (@extract_transcript (scripted numbered_answers) "v1"
         [("v1", (Some "hello world", []))] 7%nat)
  = (Some "hello world", [("v1", (Some "hello world", []))], 7%nat).
Proof.
  apply (@extract_transcript_is_memoized (scripted numbered_answers)
           "v1" [] 0%nat (Some "hello world")
           [("v1", (Some "hello world", []))] 0%nat [] 7%nat).
  reflexivity.
Defined.

Lemma fetched_transcript_is_empty_iff_witness :
  @extract_transcript (scripted empty_transcript) "v1" [] 0%nat
  = (Some EmptyString, [("v1", (Some EmptyString, []))], 0%nat, []).
Proof.
  apply (@fetched_transcript_is_empty_iff (scripted empty_transcript)
           "v1" [] 0%nat 0%nat []);
    reflexivity.
Defined.

Lemma transcript_error_is_remembered_witness :
  @extract_transcript (scripted transcript_error) "v1" [] 0%nat
  = (None, [("v1", (None, [TranscriptError "v1" "connection reset"]))],
     0%nat, [EvWarning (TranscriptError "v1" "connection reset")]).
Proof.
  apply (@transcript_error_is_remembered (scripted transcript_error)
           "v1" [] 0%nat 0%nat 0%nat "connection reset");
    reflexivity.
Defined.

(** ** More on [extract_playlist_items] *)

Section PlaylistMore.
Context {svc : Services}.

Lemma collect_items_filled (l : list PlaylistItem)
    (videos videos' : list PlaylistVideo) :
  Forall filled videos ->
  collect_items l videos = Ret videos' ->
  Forall filled videos'.
Proof.
  revert videos; induction l as [|item l IH]; intros videos F H.
  - cbn in H. now inversion H; subst.
  - cbn [collect_items] in H.
    destruct (contentDetails item) as [video_id|]; [|discriminate].
    destruct (snippet item) as [item_title|]; [|discriminate].
    destruct video_id as [v|], item_title as [t|]; eauto.
    destruct (PyStr.truthy v && PyStr.truthy t) eqn:E; eauto.
    apply andb_true_iff in E as [Ev Et].
    eapply IH; [|exact H]. apply Forall_app. split; [exact F|].
    constructor; [split; assumption|constructor].
Qed.

Lemma paging_loop_filled (fuel : nat) (playlist_id : string) :
  forall (tok : option string) (videos : list PlaylistVideo) (w : World)
         (videos' : list PlaylistVideo) (w' : World) (tr : list event),
    Forall filled videos ->
    paging_loop fuel playlist_id tok videos w = Some (Ret videos', w', tr) ->
    Forall filled videos'
    /\ forallb is_page_request tr = true.
Proof.
  induction fuel as [|fuel IH]; intros tok videos w videos' w' tr F H;
    [discriminate|].
  cbn [paging_loop] in H.
  destruct (execute playlist_id tok w) as [[response|e] w1]; [|discriminate].
  destruct (collect_items _ videos) as [videos1|e] eqn:C; [|discriminate].
  pose proof (collect_items_filled _ _ _ F C) as F1.
  destruct (PyStr.truthy_opt (nextPageToken response)).
  - destruct (paging_loop fuel playlist_id (nextPageToken response)
                videos1 w1) as [[[res w2] tr2]|] eqn:L; [|discriminate].
    inversion H; subst. destruct (IH _ _ _ _ _ _ F1 L) as [F2 T2].
    split; [exact F2|]. cbn. exact T2.
  - inversion H; subst. split; [exact F1|reflexivity].
Qed.

(** Whatever the listing source answers, every record that the enumerator
    returns has a non-empty videoId and a non-empty title; and when it
    reports a failure it returns no record at all, not the ones of the
    pages read before the failure. *)
Theorem extracted_videos_are_filled
    (fuel : nat) (playlist_url : string) (w : World)
    (videos : list PlaylistVideo) (w' : World) (tr : list event) :
  extract_playlist_items fuel playlist_url w = Some (videos, w', tr) ->
  Forall filled videos
  /\ (forall n, In (EvError n) tr -> videos = []).
Proof.
  unfold extract_playlist_items.
  destruct (fetch_playlist fuel playlist_url w) as [[[[vs|e] w1] tr1]|] eqn:E;
    [| |discriminate].
  - intros H; inversion H; subst. unfold fetch_playlist in E.
    destruct (negb (PyStr.truthy_opt (get_playlist_id playlist_url)));
      [discriminate|].
    destruct (build w) as [[u|e] w2]; [|discriminate].
    destruct (paging_loop_filled _ _ _ _ _ _ _ _ (Forall_nil _) E) as [F T].
    split; [exact F|].
    intros n Hin. rewrite forallb_forall in T. now specialize (T _ Hin).
  - intros H; inversion H; subst. split; [constructor|reflexivity].
Qed.

Lemma collect_items_incomplete (l : list PlaylistItem)
    (videos : list PlaylistVideo) :
  forallb has_parts l = false ->
  collect_items l videos = Raise "'contentDetails'"
  \/ collect_items l videos = Raise "'snippet'".
Proof.
  revert videos; induction l as [|item l IH]; intros videos H;
    [discriminate|].
  cbn [forallb] in H. cbn [collect_items]. unfold has_parts in H.
  destruct (contentDetails item) as [video_id|]; [|now left].
  destruct (snippet item) as [item_title|]; [|now right].
  cbn in H.
  destruct video_id as [v|], item_title as [t|]; eauto.
  destruct (PyStr.truthy v && PyStr.truthy t); eauto.
Qed.

(** An item without its [contentDetails] or its [snippet] part makes the
    whole enumeration fail with the [KeyError] of that part: the failure is
    reported and the caller receives the empty list, also when pages were
    read before. *)
Theorem missing_part_fails_the_enumeration
    (fuel : nat) (url playlist_id : string) (w w1 : World)
    (ps : list Page) (w2 : World) (tok : option string) (p : Page)
    (w3 : World) :
  get_playlist_id url = Some playlist_id ->
  build w = (Ret tt, w1) ->
  pages_served playlist_id w1 None ps w2 tok ->
  complete_pages ps ->
  execute playlist_id tok w2 = (Ret p, w3) ->
  forallb has_parts (page_items p) = false ->
  (List.length ps < fuel)%nat ->
  exists e,
    (e = "'contentDetails'" \/ e = "'snippet'")
    /\ extract_playlist_items fuel url w
       = Some ([], w3,
               page_requests playlist_id None ps
                 ++ [EvPageRequest playlist_id tok;
                     EvError (PlaylistFetchFailed e)]).
Proof.
  intros Hid Hb Hs Hc Ep Hp Hf.
  unfold extract_playlist_items, fetch_playlist.
  rewrite (playlist_id_truthy _ _ Hid), Hid, Hb. cbn [negb].
  replace fuel with (List.length ps + S (fuel - S (List.length ps)))%nat
    by lia.
  rewrite (paging_loop_served _ _ _ _ _ _ Hs Hc).
  cbn [paging_loop]. rewrite Ep.
  change (match items p with Some l => l | None => [] end)
    with (page_items p).
  destruct (collect_items_incomplete (page_items p)
              ([] ++ videos_of (flat_map page_items ps)) Hp) as [E|E];
    rewrite E; eexists; (split; [|now rewrite <- app_assoc]); auto.
Qed.

Lemma paging_loop_endless (playlist_id : string) :
  (forall tok w, exists p w',
      execute playlist_id tok w = (Ret p, w')
      /\ forallb has_parts (page_items p) = true
      /\ PyStr.truthy_opt (nextPageToken p) = true) ->
  forall fuel tok videos w,
    paging_loop fuel playlist_id tok videos w = None.
Proof.
  intros H fuel. induction fuel as [|fuel IH]; intros tok videos w;
    [reflexivity|].
  cbn [paging_loop]. destruct (H tok w) as (p & w' & E & C & T).
  rewrite E.
  change (match items p with Some l => l | None => [] end)
    with (page_items p).
  now rewrite (collect_items_complete _ _ C), T, IH.
Qed.

(** The loop has no bound of its own: against a source that answers every
    request with a page and a continuation token, the enumerator is still
    requesting pages after any number of requests. *)
Theorem endless_listing_never_returns
    (url playlist_id : string) (w w1 : World) :
  get_playlist_id url = Some playlist_id ->
  build w = (Ret tt, w1) ->
  (forall tok w0, exists p w',
      execute playlist_id tok w0 = (Ret p, w')
      /\ forallb has_parts (page_items p) = true
      /\ PyStr.truthy_opt (nextPageToken p) = true) ->
  forall fuel, extract_playlist_items fuel url w = None.
Proof.
  intros Hid Hb H fuel. unfold extract_playlist_items, fetch_playlist.
  rewrite (playlist_id_truthy _ _ Hid), Hid, Hb. cbn [negb].
  now rewrite (paging_loop_endless _ H).
Qed.

End PlaylistMore.

Lemma extracted_videos_are_filled_witness :
  Forall filled
    [{| videoId := "v1"; title := "Intro" |};
     {| videoId := "v3"; title := "Outro" |}].
Proof.
  apply (@extracted_videos_are_filled (scripted two_pages) 5
           "https://www.youtube.com/playlist?list=PL123" 0%nat
           [{| videoId := "v1"; title := "Intro" |};
            {| videoId := "v3"; title := "Outro" |}] 0%nat
           [EvPageRequest "PL123" None; EvPageRequest "PL123" (Some "T2")]).
  reflexivity.
Defined.

Lemma missing_part_fails_the_enumeration_witness :
  exists e,
    (e = "'contentDetails'" \/ e = "'snippet'")
    /\ @extract_playlist_items (scripted incomplete_item) 5
         "https://www.youtube.com/playlist?list=PL123" 0%nat
       = Some ([], 0%nat,
               [EvPageRequest "PL123" None;
                EvError (PlaylistFetchFailed e)]).
Proof.
  apply (@missing_part_fails_the_enumeration (scripted incomplete_item) 5
           "https://www.youtube.com/playlist?list=PL123" "PL123"
           0%nat 0%nat [] 0%nat None
           {| items := Some [{| contentDetails := Some (Some "v1");
                                snippet := None |}];
              nextPageToken := None |} 0%nat);
    try reflexivity.
  - apply served_none.
  - constructor.
  - cbn. lia.
Defined.

Lemma endless_listing_never_returns_witness :
  @extract_playlist_items (scripted endless_listing) 1000
    "https://www.youtube.com/playlist?list=PL123" 0%nat
  = None.
Proof.
  apply (@endless_listing_never_returns (scripted endless_listing)
           "https://www.youtube.com/playlist?list=PL123" "PL123" 0%nat 0%nat).
  - reflexivity.
  - reflexivity.
  - intros tok w0.
    exists {| items := Some [item_of (Some "v1") (Some "Intro")];
              nextPageToken := Some "again" |}, w0.
    repeat split.
Defined.

(** ** More on the processing loop *)

Module CountFacts.

Lemma count_app {A : Type} (f : A -> bool) (l1 l2 : list A) :
  List.length (filter f (l1 ++ l2))
  = (List.length (filter f l1) + List.length (filter f l2))%nat.
Proof. now rewrite filter_app, length_app. Qed.

Lemma service_events_app (tr1 tr2 : list event) :
  forallb is_service_event (tr1 ++ tr2)
  = forallb is_service_event tr1 && forallb is_service_event tr2.
Proof. apply forallb_app. Qed.

Lemma service_events_quiet (tr : list event) :
  forallb is_service_event tr = true ->
  cooldowns tr = 0%nat /\ filter is_download_all tr = [].
Proof.
  unfold cooldowns. induction tr as [|ev tr IH]; [auto|].
  cbn [forallb]. intros H. apply andb_true_iff in H as [He Ht].
  destruct (IH Ht) as [C D].
  destruct ev; try discriminate; cbn; auto.
Qed.

Lemma warnings_are_service_events (shown : list notice) :
  forallb is_service_event (map EvWarning shown) = true.
Proof. induction shown as [|n l IH]; [reflexivity|exact IH]. Qed.

End CountFacts.

Section ProcessingMore.
Context {svc : Services}.
Variable SUMMARY_PROMPT QA_PROMPT : string.
Import DictFacts CountFacts TraceFacts.

Local Abbreviation step := (process_video SUMMARY_PROMPT QA_PROMPT).
Local Abbreviation loop := (process_videos SUMMARY_PROMPT QA_PROMPT).

Lemma retry_loop_service_events (m input : string) (n : nat) (w : World) :
  forallb is_service_event (trace (retry_loop m input n w)) = true.
Proof.
  revert w; induction n as [|n IH]; intros w; [reflexivity|].
  rewrite retry_loop_step.
  destruct (attempt m input w) as [[t|e] w1]; [reflexivity|].
  destruct (PyStr.contains "429" e); [|reflexivity].
  destruct (delay_seconds_of e) as [d|x]; [|reflexivity].
  destruct (sleep_rejects d w1); [reflexivity|].
  exact (IH (sleep d w1)).
Qed.

Lemma model_loop_service_events (names : list string) (input : string)
    (retries : Z) (w : World) :
  forallb is_service_event (trace (model_loop names input retries w)) = true.
Proof.
  revert w; induction names as [|m rest IH]; intros w; [reflexivity|].
  rewrite model_loop_step.
  destruct (GenerativeModel m w) as [[u|e] w1]; [|reflexivity].
  cbn zeta.
  pose proof (retry_loop_service_events m input (Z.to_nat retries) w1) as R.
  destruct (result (retry_loop m input (Z.to_nat retries) w1)) as [[s|]|e].
  - exact R.
  - unfold trace in *. cbn [snd forallb is_service_event andb].
    now rewrite service_events_app, R, IH.
  - exact R.
Qed.

(** The trace of a tab: its invocations, and nothing of the loop. *)
Lemma generation_tab_profile (prompt transcript video_id video_title : string)
    (content_type : string) (announce failed : notice) (bundle : dict)
    (w : World) :
  is_cooldown (EvInfo announce) = false ->
  let tr := trace (generation_tab prompt transcript video_id video_title
                     content_type announce failed bundle w) in
  (invocations tr <= 6)%nat
  /\ cooldowns tr = 0%nat
  /\ filter is_download_all tr = [].
Proof.
  intros Ha. cbn zeta. unfold generation_tab.
  pose proof (model_loop_bound default_model_names (prompt ++ transcript)
                default_retries w) as B.
  pose proof (model_loop_service_events default_model_names
                (prompt ++ transcript) default_retries w) as Sv.
  apply service_events_quiet in Sv as [C D].
  unfold generate_with_gemini.
  destruct (model_loop default_model_names (prompt ++ transcript)
              default_retries w) as [[[g|e] w1] tr].
  - unfold trace in *. cbn [snd] in *.
    destruct (PyStr.truthy_opt g); cbn [snd].
    + unfold invocations, cooldowns in *.
      cbn [filter is_invoke is_download_all]. rewrite Ha.
      rewrite !filter_app, !length_app, D, C.
      cbn. change (Z.to_nat default_retries) with 3%nat in B.
      change (List.length default_model_names) with 2%nat in B.
      repeat split; lia.
    + unfold invocations, cooldowns in *.
      cbn [filter is_invoke is_download_all]. rewrite Ha.
      rewrite !filter_app, !length_app, D, C.
      cbn. change (Z.to_nat default_retries) with 3%nat in B.
      change (List.length default_model_names) with 2%nat in B.
      repeat split; lia.
  - unfold trace, invocations, cooldowns in *.
    cbn [snd filter is_invoke is_download_all] in *.
    rewrite Ha, D, C.
    change (Z.to_nat default_retries) with 3%nat in B.
    change (List.length default_model_names) with 2%nat in B.
    repeat split; lia.
Qed.

Ltac measure :=
  unfold invocations, cooldowns in *;
  repeat (rewrite filter_app || rewrite length_app);
  cbn [filter is_invoke is_cooldown is_download_all List.length app];
  repeat (rewrite filter_app || rewrite length_app);
  cbn [filter is_invoke is_cooldown is_download_all List.length app].

(** The trace of the body of the loop. *)
Lemma process_video_profile (throttle_delay : Z) (total idx : nat)
    (vid : PlaylistVideo) (b : bundles) (c : cache) (w : World) :
  let tr := trace (step throttle_delay total idx vid b c w) in
  (invocations tr <= 12)%nat
  /\ filter is_download_all tr = []
  /\ (cooldowns tr
      <= if ((0 <? throttle_delay)
             && (Z.of_nat idx <? Z.of_nat total - 1))%Z
         then 1 else 0)%nat.
Proof.
  cbn zeta. unfold process_video.
  destruct (extract_transcript_trace (videoId vid) c w) as [shown Hs].
  destruct (extract_transcript (videoId vid) c w) as [[[tx c1] w1] tr1].
  cbn [snd] in Hs. subst tr1.
  destruct (warnings_are_quiet shown) as (I1 & _ & _).
  destruct (service_events_quiet _ (warnings_are_service_events shown))
    as [C1 D1].
  destruct (negb (PyStr.truthy_opt tx)).
  { unfold trace. cbn [snd]. measure. rewrite D1.
    unfold invocations, cooldowns in *. rewrite I1, C1.
    repeat split; try reflexivity; try lia;
      destruct ((0 <? throttle_delay) && (Z.of_nat idx <? Z.of_nat total - 1));
      lia. }
  pose proof (generation_tab_profile SUMMARY_PROMPT
                (match tx with Some s => s | None => EmptyString end)
                (videoId vid) (title vid) "summary" GeneratingNotes
                SummaryFailed (all_notes b) w1 eq_refl) as P2.
  destruct (generation_tab SUMMARY_PROMPT _ _ _ _ _ _ (all_notes b) w1)
    as [[r2 w2] tr2].
  cbn zeta in P2. unfold trace in P2. cbn [snd] in P2.
  destruct P2 as (I2 & C2 & D2).
  destruct r2 as [notes|e].
  2:{ unfold trace. cbn [snd]. measure. rewrite D1, D2.
      unfold invocations, cooldowns in *. rewrite I1, C1, C2.
      repeat split; try reflexivity; try lia;
        destruct ((0 <? throttle_delay)
                  && (Z.of_nat idx <? Z.of_nat total - 1)); lia. }
  pose proof (generation_tab_profile QA_PROMPT
                (match tx with Some s => s | None => EmptyString end)
                (videoId vid) (title vid) "qa" CreatingQuestions
                QAFailed (all_qas b) w2 eq_refl) as P3.
  destruct (generation_tab QA_PROMPT _ _ _ _ _ _ (all_qas b) w2)
    as [[r3 w3] tr3].
  cbn zeta in P3. unfold trace in P3. cbn [snd] in P3.
  destruct P3 as (I3 & C3 & D3).
  destruct r3 as [qas|e].
  2:{ unfold trace. cbn [snd]. measure. rewrite D1, D2, D3.
      unfold invocations, cooldowns in *. rewrite I1, C1, C2, C3.
      repeat split; try reflexivity; try lia;
        destruct ((0 <? throttle_delay)
                  && (Z.of_nat idx <? Z.of_nat total - 1)); lia. }
  destruct ((0 <? throttle_delay) && (Z.of_nat idx <? Z.of_nat total - 1));
    unfold trace; cbn [snd]; unfold create_download_buttons; measure;
    rewrite D1, D2, D3; unfold invocations, cooldowns in *;
    rewrite I1, C1, C2, C3; repeat split; try reflexivity; lia.
Qed.

Lemma process_videos_profile (throttle_delay : Z) (total : nat)
    (vids : list PlaylistVideo) :
  forall (idx : nat) (b : bundles) (c : cache) (w : World),
    let tr := trace (loop throttle_delay total idx vids b c w) in
    (invocations tr <= 12 * List.length vids)%nat
    /\ filter is_download_all tr = []
    /\ (cooldowns tr <= Nat.min (List.length vids) (total - 1 - idx))%nat
    /\ (throttle_delay <= 0 -> cooldowns tr = 0%nat).
Proof.
  induction vids as [|vid rest IH]; intros idx b c w; cbn zeta.
  - cbn. repeat split; auto; lia.
  - cbn [process_videos].
    pose proof (process_video_profile throttle_delay total idx vid b c w)
      as P.
    destruct (step throttle_delay total idx vid b c w)
      as [[[[b1|e] c1] w1] tr1].
    + specialize (IH (S idx) b1 c1 w1).
      destruct (loop throttle_delay total (S idx) rest b1 c1 w1)
        as [[[r' c2] w2] tr'].
      cbn zeta in *. unfold trace in *. cbn [snd] in *.
      destruct P as (I & D & C). destruct IH as (I' & D' & C' & Z').
      unfold invocations, cooldowns in *.
      rewrite !filter_app, !length_app, D, D'. cbn [List.length].
      repeat split; try lia.
      * destruct (0 <? throttle_delay) eqn:T; cbn [andb] in C; [|lia].
        destruct (Z.of_nat idx <? Z.of_nat total - 1) eqn:L; [|lia].
        apply Z.ltb_lt in L. lia.
      * intros Hz. specialize (Z' Hz).
        assert (T : (0 <? throttle_delay) = false) by (apply Z.ltb_ge; lia).
        rewrite T in C. cbn [andb] in C. lia.
    + cbn zeta in *. unfold trace in *. cbn [snd] in *.
      destruct P as (I & D & C). cbn [List.length].
      repeat split; try lia; auto.
      * destruct (0 <? throttle_delay) eqn:T; cbn [andb] in C; [|lia].
        destruct (Z.of_nat idx <? Z.of_nat total - 1) eqn:L; [|lia].
        apply Z.ltb_lt in L. lia.
      * intros Hz.
        assert (T : (0 <? throttle_delay) = false) by (apply Z.ltb_ge; lia).
        rewrite T in C. cbn [andb] in C. lia.
Qed.

Lemma start_processing_profile
    (throttle_delay : Z) (selected_videos : list PlaylistVideo)
    (c : cache) (w : World) :
  let tr :=
    trace (start_processing SUMMARY_PROMPT QA_PROMPT throttle_delay
             selected_videos c w) in
  (invocations tr <= 12 * List.length selected_videos)%nat
  /\ (cooldowns tr <= List.length selected_videos - 1)%nat
  /\ (throttle_delay <= 0 -> cooldowns tr = 0%nat).
Proof.
  cbn zeta. unfold start_processing.
  pose proof (process_videos_profile throttle_delay
                (List.length selected_videos) selected_videos 0
                {| all_notes := []; all_qas := [] |} c w) as P.
  destruct (loop throttle_delay (List.length selected_videos) 0
              selected_videos {| all_notes := []; all_qas := [] |} c w)
    as [[[[b'|e] c1] w1] tr].
  - cbn zeta in P. unfold trace in *. cbn [snd] in *.
    destruct P as (I & D & C & Z').
    unfold invocations, cooldowns in *.
    rewrite !filter_app, !length_app.
    destruct (dict_truthy (all_notes b')), (dict_truthy (all_qas b'));
      cbn; repeat split; try lia; intros Hz; specialize (Z' Hz); lia.
  - cbn zeta in P. unfold trace in *. cbn [snd] in *.
    destruct P as (I & D & C & Z'). repeat split; auto; lia.
Qed.

(** The cost of a run.  For a selection of [n] videos the block under the
    start button invokes a model at most [12 n] times (two prompts, two
    models, three attempts per video), and it cools down at most [n - 1]
    times, never when the cooldown is set to zero. *)
Theorem start_processing_cost
    (throttle_delay : Z) (selected_videos : list PlaylistVideo)
    (c : cache) (w : World) :
  let tr :=
    trace (start_processing SUMMARY_PROMPT QA_PROMPT throttle_delay
             selected_videos c w) in
  (invocations tr <= 12 * List.length selected_videos)%nat
  /\ (cooldowns tr <= List.length selected_videos - 1)%nat
  /\ (throttle_delay <= 0 -> cooldowns tr = 0%nat).
Proof. apply start_processing_profile. Qed.

Lemma filter_nil_In {A : Type} (f : A -> bool) (l : list A) (x : A) :
  filter f l = [] -> In x l -> f x = false.
Proof.
  induction l as [|a l IH]; [intros _ []|]. cbn.
  destruct (f a) eqn:E; [discriminate|].
  intros H [->|Hin]; auto.
Qed.

(** An aggregate download is offered only for a bundle that has entries,
    and it carries the bundle that the loop built: the notes under
    [all_summaries.json], the questions under [all_qas.json]. *)
Theorem aggregate_downloads_are_not_empty
    (throttle_delay : Z) (selected_videos : list PlaylistVideo)
    (c : cache) (w : World) (b' : bundles)
    (file_name : string) (bundle : dict) :
  let run :=
    start_processing SUMMARY_PROMPT QA_PROMPT throttle_delay
      selected_videos c w in
  outcome_of run = Ret b' ->
  In (EvShow (DownloadAll file_name bundle)) (trace run) ->
  bundle <> []
  /\ ((file_name = "all_summaries.json" /\ bundle = all_notes b')
      \/ (file_name = "all_qas.json" /\ bundle = all_qas b')).
Proof.
  cbn zeta. unfold start_processing.
  pose proof (process_videos_profile throttle_delay
                (List.length selected_videos) selected_videos 0
                {| all_notes := []; all_qas := [] |} c w) as P.
  destruct (loop throttle_delay (List.length selected_videos) 0
              selected_videos {| all_notes := []; all_qas := [] |} c w)
    as [[[[b1|e] c1] w1] tr]; [|discriminate].
  cbn zeta in P. unfold trace in *. cbn [snd] in *.
  destruct P as (_ & D & _). unfold outcome_of. cbn [fst snd].
  intros H Hin. inversion H; subst b1.
  apply in_app_or in Hin as [Hin|Hin].
  { apply (filter_nil_In _ _ _ D) in Hin. discriminate. }
  cbn [app] in Hin. destruct Hin as [Hin|Hin]; [discriminate|].
  apply in_app_or in Hin as [Hin|Hin].
  { revert Hin. destruct (all_notes b') as [|p d] eqn:N; cbn;
      intros Hin; [destruct Hin|].
    destruct Hin as [Hin|[]]. inversion Hin; subst. split; [discriminate|].
    left. auto. }
  apply in_app_or in Hin as [Hin|Hin].
  { revert Hin. destruct (all_qas b') as [|p d] eqn:N; cbn;
      intros Hin; [destruct Hin|].
    destruct Hin as [Hin|[]]. inversion Hin; subst. split; [discriminate|].
    right. auto. }
  destruct Hin as [Hin|[]]. discriminate.
Qed.

Lemma touched_keys (key : string) (d d' : dict) (k : string) :
  touched key d d' -> In k (dict_keys d') -> k = key \/ In k (dict_keys d).
Proof.
  intros [->|[v ->]] H; [now right|].
  rewrite dict_keys_set in H.
  destruct (in_dec string_dec key (dict_keys d)); [now right|].
  apply in_app_or in H as [H|[H|[]]]; auto.
Qed.

(** The keys of both bundles are titles of selected videos. *)
Theorem bundle_keys_are_titles
    (throttle_delay : Z) (selected_videos : list PlaylistVideo)
    (c : cache) (w : World) (b' : bundles) (k : string) :
  outcome_of
    (start_processing SUMMARY_PROMPT QA_PROMPT throttle_delay
       selected_videos c w) = Ret b' ->
  In k (dict_keys (all_notes b')) \/ In k (dict_keys (all_qas b')) ->
  In k (map title selected_videos).
Proof.
  unfold start_processing.
  destruct (loop throttle_delay (List.length selected_videos) 0
              selected_videos {| all_notes := []; all_qas := [] |} c w)
    as [[[[b1|e] c1] w1] tr] eqn:L; [|discriminate].
  unfold outcome_of. cbn [fst]. intros H; inversion H; subst b1.
  assert (P : forall k0,
             In k0 (dict_keys (all_notes b'))
             \/ In k0 (dict_keys (all_qas b')) ->
             In k0 (map title selected_videos)).
  { apply (process_videos_invariant SUMMARY_PROMPT QA_PROMPT
             (fun b0 => forall k0,
                  In k0 (dict_keys (all_notes b0))
                  \/ In k0 (dict_keys (all_qas b0)) ->
                  In k0 (map title selected_videos))
             (fun v => In (title v) (map title selected_videos))
             throttle_delay (List.length selected_videos))
      with (vids := selected_videos) (idx := 0%nat)
           (b := {| all_notes := []; all_qas := [] |}) (c := c) (w := w).
    - intros i vid b0 c0 w0 b1 Hv Hb Hstep k0 Hk.
      destruct (process_video_touches _ _ _ _ _ _ _ _ _ _ Hstep) as [Tn Tq].
      destruct Hk as [Hk|Hk].
      + destruct (touched_keys _ _ _ _ Tn Hk) as [->|Hold]; auto.
      + destruct (touched_keys _ _ _ _ Tq Hk) as [->|Hold]; auto.
    - apply Forall_forall. intros v Hv. now apply in_map.
    - cbn. intros k0 [[]|[]].
    - unfold outcome_of. now rewrite L. }
  apply P.
Qed.

(** The two tabs are independent: when the notes cannot be generated, the
    failure is reported, the notes bundle is left as it was, and the
    questions are still generated and stored. *)
Theorem failed_summary_does_not_block_questions
    (throttle_delay : Z) (total idx : nat) (vid : PlaylistVideo)
    (b : bundles) (c : cache) (w : World)
    (transcript : string) (c2 : cache) (w2 : World) (tr2 : list event)
    (g : option string) (w3 : World) (tr3 : list event)
    (q : string) (w4 : World) (tr4 : list event) :
  extract_transcript (videoId vid) c w = (Some transcript, c2, w2, tr2) ->
  PyStr.truthy transcript = true ->
  generate_with_gemini SUMMARY_PROMPT transcript default_retries
    default_model_names w2 = (Ret g, w3, tr3) ->
  PyStr.truthy_opt g = false ->
  generate_with_gemini QA_PROMPT transcript default_retries
    default_model_names w3 = (Ret (Some q), w4, tr4) ->
  PyStr.truthy q = true ->
  let run := step throttle_delay total idx vid b c w in
  outcome_of run
  = Ret {| all_notes := all_notes b;
           all_qas := dict_set (title vid) q (all_qas b) |}
  /\ In (EvError SummaryFailed) (trace run).
Proof.
  intros E T G1 T1 G2 T2. cbn zeta. unfold process_video.
  rewrite E. cbn [PyStr.truthy_opt]. rewrite T. cbn [negb].
  unfold generation_tab. rewrite G1, T1, G2. cbn [PyStr.truthy_opt].
  rewrite T2.
  destruct ((0 <? throttle_delay) && (Z.of_nat idx <? Z.of_nat total - 1));
    (split; [reflexivity|]); unfold trace; cbn [snd];
    apply in_or_app; right; apply in_or_app; right; right;
    apply in_or_app; left; right; apply in_or_app; right; now left.
Qed.

(** An answer that consists of white space is stripped to the empty
    string, which the tab takes for a failure: nothing is stored, and
    neither another attempt nor the next model is tried. *)
Theorem blank_answer_counts_as_failure
    (prompt transcript video_id video_title content_type : string)
    (announce failed : notice) (bundle : dict) (w w1 w2 : World)
    (t : string) :
  GenerativeModel "gemini-1.5-flash" w = (Ret tt, w1) ->
  attempt "gemini-1.5-flash" (prompt ++ transcript) w1 = (Ret t, w2) ->
  PyStr.all_chars PyStr.is_space t = true ->
  generation_tab prompt transcript video_id video_title content_type
    announce failed bundle w
  = (Ret bundle, w2,
     [EvInfo announce;
      EvConstruct "gemini-1.5-flash";
      EvInvoke "gemini-1.5-flash" (prompt ++ transcript) (Ret t);
      EvError failed]).
Proof.
  intros G A Hs. unfold generation_tab, generate_with_gemini.
  unfold default_model_names. rewrite model_loop_step, G. cbn zeta.
  change (Z.to_nat default_retries) with 3%nat.
  rewrite retry_loop_step, A. cbn [result trace fst snd].
  rewrite (proj2 (proj2 (proj2 (proj2 (strip_is_trimmed t)))) Hs).
  reflexivity.
Qed.

End ProcessingMore.

Lemma start_processing_cost_witness :
  (invocations
     (trace (@start_processing (scripted numbered_answers)
               "notes: " "questions: " 0
               [{| videoId := "v1"; title := "Lecture" |};
                {| videoId := "v2"; title := "Lecture" |}] [] 0%nat))
   <= 12 * 2)%nat
  /\ cooldowns
       (trace (@start_processing (scripted numbered_answers)
                 "notes: " "questions: " 0
                 [{| videoId := "v1"; title := "Lecture" |};
                  {| videoId := "v2"; title := "Lecture" |}] [] 0%nat))
     = 0%nat.
Proof.
  destruct (@start_processing_cost (scripted numbered_answers)
              "notes: " "questions: " 0
              [{| videoId := "v1"; title := "Lecture" |};
               {| videoId := "v2"; title := "Lecture" |}] [] 0%nat)
    as (I & _ & Z0).
  split; [exact I|]. apply Z0. lia.
Defined.

Lemma aggregate_downloads_are_not_empty_witness :
  (@extract_transcript_body (scripted numbered_answers) "v1" 0%nat
   = (Some "hello world", 0%nat, [])
   /\ @extract_transcript_body (scripted numbered_answers) "v2" 0%nat
      = (Some "good bye", 0%nat, []))
  /\ outcome_of
       (@start_processing (scripted numbered_answers)
          "notes: " "questions: " 0
          [{| videoId := "v1"; title := "Lecture" |};
           {| videoId := "v2"; title := "Talk" |}] [] 0%nat)
     = Ret {| all_notes := [("Lecture", "summary A"); ("Talk", "summary B")];
              all_qas := [("Lecture", "questions A");
                          ("Talk", "questions B")] |}
  /\ In (EvShow (DownloadAll "all_summaries.json"
                   [("Lecture", "summary A"); ("Talk", "summary B")]))
        (trace (@start_processing (scripted numbered_answers)
                  "notes: " "questions: " 0
                  [{| videoId := "v1"; title := "Lecture" |};
                   {| videoId := "v2"; title := "Talk" |}] [] 0%nat))
  /\ [("Lecture", "summary A"); ("Talk", "summary B")] <> ([] : dict).
Proof.
  assert (O : outcome_of
                (@start_processing (scripted numbered_answers)
                   "notes: " "questions: " 0
                   [{| videoId := "v1"; title := "Lecture" |};
                    {| videoId := "v2"; title := "Talk" |}] [] 0%nat)
              = Ret {| all_notes := [("Lecture", "summary A");
                                     ("Talk", "summary B")];
                       all_qas := [("Lecture", "questions A");
                                   ("Talk", "questions B")] |})
    by (vm_compute; reflexivity).
  assert (I : In (EvShow (DownloadAll "all_summaries.json"
                            [("Lecture", "summary A"); ("Talk", "summary B")]))
                 (trace (@start_processing (scripted numbered_answers)
                           "notes: " "questions: " 0
                           [{| videoId := "v1"; title := "Lecture" |};
                            {| videoId := "v2"; title := "Talk" |}]
                           [] 0%nat)))
    by (vm_compute; tauto).
  split; [split; vm_compute; reflexivity|].
  split; [exact O|]. split; [exact I|].
  exact (proj1 (@aggregate_downloads_are_not_empty
                  (scripted numbered_answers) "notes: " "questions: " 0
                  [{| videoId := "v1"; title := "Lecture" |};
                   {| videoId := "v2"; title := "Talk" |}] [] 0%nat
                  _ _ _ O I)).
Defined.

Lemma bundle_keys_are_titles_witness :
  (@extract_transcript_body (scripted numbered_answers) "v1" 0%nat
   = (Some "hello world", 0%nat, [])
   /\ @extract_transcript_body (scripted numbered_answers) "v2" 0%nat
      = (Some "good bye", 0%nat, []))
  /\ outcome_of
       (@start_processing (scripted numbered_answers)
          "notes: " "questions: " 0
          [{| videoId := "v1"; title := "Lecture" |};
           {| videoId := "v2"; title := "Talk" |}] [] 0%nat)
     = Ret {| all_notes := [("Lecture", "summary A"); ("Talk", "summary B")];
              all_qas := [("Lecture", "questions A");
                          ("Talk", "questions B")] |}
  /\ In "Talk" (dict_keys [("Lecture", "summary A"); ("Talk", "summary B")])
  /\ In "Talk"
       (map title [{| videoId := "v1"; title := "Lecture" |};
                   {| videoId := "v2"; title := "Talk" |}]).
Proof.
  assert (O : outcome_of
                (@start_processing (scripted numbered_answers)
                   "notes: " "questions: " 0
                   [{| videoId := "v1"; title := "Lecture" |};
                    {| videoId := "v2"; title := "Talk" |}] [] 0%nat)
              = Ret {| all_notes := [("Lecture", "summary A");
                                     ("Talk", "summary B")];
                       all_qas := [("Lecture", "questions A");
                                   ("Talk", "questions B")] |})
    by (vm_compute; reflexivity).
  assert (K : In "Talk"
                (dict_keys [("Lecture", "summary A"); ("Talk", "summary B")]))
    by (vm_compute; tauto).
  split; [split; vm_compute; reflexivity|].
  split; [exact O|]. split; [exact K|].
  exact (@bundle_keys_are_titles (scripted numbered_answers)
           "notes: " "questions: " 0
           [{| videoId := "v1"; title := "Lecture" |};
            {| videoId := "v2"; title := "Talk" |}] [] 0%nat
           _ "Talk" O (or_introl K)).
Defined.

Lemma failed_summary_does_not_block_questions_witness :
  outcome_of
    (@process_video (scripted summary_fails) "notes: " "questions: "
       0 1 0 {| videoId := "v1"; title := "Lecture" |}
       {| all_notes := []; all_qas := [] |} [] 0%nat)
  = Ret {| all_notes := []; all_qas := [("Lecture", "questions")] |}.
Proof.
  apply (@failed_summary_does_not_block_questions (scripted summary_fails)
           "notes: " "questions: " 0 1%nat 0%nat
           {| videoId := "v1"; title := "Lecture" |}
           {| all_notes := []; all_qas := [] |} [] 0%nat
           "hello" [("v1", (Some "hello", []))] 0%nat []
           None 2%nat
           (snd (@generate_with_gemini (scripted summary_fails)
                   "notes: " "hello" 3 default_model_names 0%nat))
           "questions" 3%nat
           (snd (@generate_with_gemini (scripted summary_fails)
                   "questions: " "hello" 3 default_model_names 2%nat)));
    reflexivity.
Defined.

Lemma blank_answer_counts_as_failure_witness :
  @generation_tab (scripted blank_answers) "notes: " "hello" "v1" "Lecture"
    "summary" GeneratingNotes SummaryFailed [] 0%nat
  = (Ret [], 1%nat,
     [EvInfo GeneratingNotes;
      EvConstruct "gemini-1.5-flash";
      EvInvoke "gemini-1.5-flash" "notes: hello" (Ret "   ");
      EvError SummaryFailed]).
Proof.
  apply (@blank_answer_counts_as_failure (scripted blank_answers)
           "notes: " "hello" "v1" "Lecture" "summary"
           GeneratingNotes SummaryFailed [] 0%nat 0%nat 1%nat "   ");
    reflexivity.
Defined.

(** ** The transcript tab *)

Module PreviewFacts.

Lemma substring_all (n : nat) (s : string) :
  (String.length s <= n)%nat -> substring 0 n s = s.
Proof.
  revert n; induction s as [|c s IH]; intros n H.
  - now destruct n.
  - destruct n as [|n]; cbn in *; [lia|]. f_equal. apply IH. lia.
Qed.

Lemma substring_head (n : nat) (s : string) :
  (n <= String.length s)%nat ->
  String.length (substring 0 n s) = n
  /\ exists rest, s = (substring 0 n s ++ rest)%string.
Proof.
  revert n; induction s as [|c s IH]; intros n H.
  - destruct n; cbn in *; [|lia]. split; [reflexivity|now exists EmptyString].
  - destruct n as [|n]; cbn in *.
    + split; [reflexivity|]. now exists (String c s).
    + destruct (IH n ltac:(lia)) as [L [rest E]].
      split; [now rewrite L|]. exists rest. now rewrite <- E.
Qed.

Lemma append_length (a b : string) :
  String.length (a ++ b)%string = (String.length a + String.length b)%nat.
Proof. induction a as [|c a IH]; cbn; [reflexivity|now rewrite IH]. Qed.

Lemma append_empty (a : string) : (a ++ EmptyString)%string = a.
Proof. induction a as [|c a IH]; cbn; [reflexivity|now rewrite IH]. Qed.

End PreviewFacts.

(** The transcript tab shows a transcript of at most 3000 characters as it
    is, and of a longer one its first 3000 characters followed by three
    dots. *)
Theorem transcript_preview_is_bounded (transcript : string) :
  (Z.of_nat (String.length transcript) <= 3000 ->
   transcript_preview transcript = transcript)
  /\ (3000 < Z.of_nat (String.length transcript) ->
      exists head rest,
        transcript = (head ++ rest)%string
        /\ Z.of_nat (String.length head) = 3000
        /\ transcript_preview transcript = (head ++ "...")%string).
Proof.
  unfold transcript_preview, PyStr.slice_to.
  assert (N : Z.of_nat 3000 = 3000) by reflexivity.
  split; intros H.
  - destruct (3000 <? Z.of_nat (String.length transcript)) eqn:L;
      [apply Z.ltb_lt in L; lia|].
    change (String.append ?a ?b) with (a ++ b)%string.
    rewrite PreviewFacts.append_empty. apply PreviewFacts.substring_all.
    apply Nat2Z.inj_le. rewrite N. exact H.
  - destruct (3000 <? Z.of_nat (String.length transcript)) eqn:L;
      [|apply Z.ltb_ge in L; lia].
    destruct (PreviewFacts.substring_head 3000 transcript) as [Len [rest E]].
    { apply Nat2Z.inj_le. rewrite N. lia. }
    exists (substring 0 3000 transcript), rest.
    split; [exact E|]. split; [now rewrite Len|reflexivity].
Qed.

Lemma transcript_preview_is_bounded_witness :
  transcript_preview "hello world" = "hello world".
Proof.
  apply (proj1 (transcript_preview_is_bounded "hello world")).
  cbn. lia.
Defined.

(** ** The page *)

Module SelectionFacts.

Lemma slice_upto_length {A : Type} (n : Z) (l : list A) :
  0 <= n -> (List.length (slice_upto n l) <= Z.to_nat n)%nat.
Proof.
  intros H. unfold slice_upto.
  destruct (0 <=? n) eqn:E; [|apply Z.leb_gt in E; lia].
  rewrite length_firstn. lia.
Qed.

Lemma slice_upto_prefix {A : Type} (n : Z) (l : list A) :
  exists rest, l = slice_upto n l ++ rest.
Proof.
  unfold slice_upto. destruct (0 <=? n).
  - exists (skipn (Z.to_nat n) l). now rewrite firstn_skipn.
  - exists (skipn (List.length l - Z.to_nat (- n)) l).
    now rewrite firstn_skipn.
Qed.

Lemma pick_length {A : Type} (l : list A) (indices : list Z)
    (picked : list A) :
  pick l indices = Ret picked -> List.length picked = List.length indices.
Proof.
  revert picked; induction indices as [|i rest IH]; intros picked H.
  - cbn in H. now inversion H.
  - cbn [pick] in H. destruct (index l i) as [a|e]; [|discriminate].
    destruct (pick l rest) as [p|e]; [|discriminate].
    inversion H; subst. cbn. now rewrite (IH p).
Qed.

Lemma shown_events_map (tr : list event) : shown_events (map Shown tr) = tr.
Proof. induction tr as [|ev tr IH]; [reflexivity|]. cbn. now f_equal. Qed.

Lemma shown_events_app (tr1 tr2 : list page_event) :
  shown_events (tr1 ++ tr2) = shown_events tr1 ++ shown_events tr2.
Proof. apply flat_map_app. Qed.

End SelectionFacts.

Section PageFacts.
Context {svc : Services}.
Variable SUMMARY_PROMPT QA_PROMPT : string.
Import SelectionFacts TraceFacts.

Lemma paging_loop_requests (fuel : nat) (playlist_id : string) :
  forall (tok : option string) (videos : list PlaylistVideo) (w : World)
         (res : outcome (list PlaylistVideo)) (w' : World) (tr : list event),
    paging_loop fuel playlist_id tok videos w = Some (res, w', tr) ->
    invocations tr = 0%nat.
Proof.
  induction fuel as [|fuel IH]; intros tok videos w res w' tr H;
    [discriminate|].
  cbn [paging_loop] in H.
  destruct (execute playlist_id tok w) as [[response|e] w1].
  - destruct (collect_items _ videos) as [videos1|e].
    + destruct (PyStr.truthy_opt (nextPageToken response)).
      * destruct (paging_loop fuel playlist_id (nextPageToken response)
                    videos1 w1) as [[[res2 w2] tr2]|] eqn:L; [|discriminate].
        inversion H; subst. exact (IH _ _ _ _ _ _ L).
      * now inversion H.
    + now inversion H.
  - now inversion H.
Qed.

Lemma extract_playlist_items_requests (fuel : nat) (url : string) (w : World)
    (videos : list PlaylistVideo) (w' : World) (tr : list event) :
  extract_playlist_items fuel url w = Some (videos, w', tr) ->
  invocations tr = 0%nat.
Proof.
  unfold extract_playlist_items.
  destruct (fetch_playlist fuel url w) as [[[r w1] tr1]|] eqn:F;
    [|discriminate].
  assert (I : invocations tr1 = 0%nat).
  { unfold fetch_playlist in F.
    destruct (negb (PyStr.truthy_opt (get_playlist_id url)));
      [now inversion F|].
    destruct (build w) as [[u|e] w2]; [|now inversion F].
    exact (paging_loop_requests _ _ _ _ _ _ _ _ F). }
  destruct r as [vs|e]; intros H; inversion H; subst; [exact I|].
  rewrite invocations_app, I. reflexivity.
Qed.

(** The cost of a run of the page.  In the mode that takes all videos the
    page invokes a model at most [12 * max_videos] times, in the manual
    mode at most 12 times per chosen index, whatever the length of the
    playlist; and it invokes none before the start button is pressed. *)
Theorem page_cost
    (fuel : nat) (wd : Widgets) (c : cache) (w : World)
    (r : outcome unit) (c' : cache) (w' : World) (tr : list page_event) :
  0 <= max_videos wd ->
  page SUMMARY_PROMPT QA_PROMPT fuel wd c w = Some (r, c', w', tr) ->
  (invocations (shown_events tr)
   <= 12 * match process_option wd with
           | AllVideos => Z.to_nat (max_videos wd)
           | ChooseManually => List.length (selected_indices wd)
           end)%nat
  /\ (start_button wd = false -> invocations (shown_events tr) = 0%nat).
Proof.
  intros Hm. unfold page.
  destruct (negb (PyStr.truthy (playlist_url wd))).
  { intros H; inversion H; subst. cbn. split; [lia|reflexivity]. }
  destruct (extract_playlist_items fuel (playlist_url wd) w)
    as [[[video_items w1] tr1]|] eqn:E; [|discriminate].
  pose proof (extract_playlist_items_requests _ _ _ _ _ _ E) as I1.
  destruct video_items as [|v0 vs].
  { intros H; inversion H; subst.
    rewrite shown_events_app, shown_events_map, invocations_app, I1.
    cbn. split; [lia|reflexivity]. }
  cbn zeta.
  assert (Hsel : forall sel,
             match process_option wd with
             | ChooseManually => pick (v0 :: vs) (selected_indices wd)
             | AllVideos => Ret (slice_upto (max_videos wd) (v0 :: vs))
             end = Ret sel ->
             (List.length sel
              <= match process_option wd with
                 | AllVideos => Z.to_nat (max_videos wd)
                 | ChooseManually => List.length (selected_indices wd)
                 end)%nat).
  { intros sel. destruct (process_option wd); intros Hs.
    - inversion Hs; subst. now apply slice_upto_length.
    - apply pick_length in Hs. lia. }
  destruct (match process_option wd with
            | ChooseManually => pick (v0 :: vs) (selected_indices wd)
            | AllVideos => Ret (slice_upto (max_videos wd) (v0 :: vs))
            end) as [sel|e].
  2:{ intros H; inversion H; subst.
      rewrite shown_events_app, shown_events_map, invocations_app, I1.
      cbn. split; [lia|reflexivity]. }
  specialize (Hsel sel eq_refl).
  destruct (start_button wd).
  - pose proof (start_processing_profile SUMMARY_PROMPT QA_PROMPT
                  (throttle_delay wd) sel c w1) as (I2 & _).
    destruct (start_processing SUMMARY_PROMPT QA_PROMPT (throttle_delay wd)
                sel c w1) as [[[r2 c2] w2] tr2].
    unfold trace in I2. cbn [snd] in I2.
    intros H; inversion H; subst.
    rewrite !shown_events_app, !shown_events_map, !invocations_app, I1.
    cbn [shown_events flat_map app]. split; [|discriminate].
    change (invocations []) with 0%nat. lia.
  - intros H; inversion H; subst.
    rewrite shown_events_app, shown_events_map, invocations_app, I1.
    cbn. split; [lia|reflexivity].
Qed.

(** A URL without a playlist ID and a playlist without videos end the page
    in the same way: the notice that no videos were found, and nothing is
    selected or processed, whatever the widgets say. *)
Theorem no_videos_end_the_page
    (fuel : nat) (wd : Widgets) (c : cache) (w : World) :
  PyStr.truthy (playlist_url wd) = true ->
  (get_playlist_id (playlist_url wd) = None ->
   page SUMMARY_PROMPT QA_PROMPT fuel wd c w
   = Some (Ret tt, c, w,
           [Shown (EvError (PlaylistFetchFailed "Invalid playlist URL"));
            NoVideosFound]))
  /\ (forall (playlist_id : string) (w1 w2 : World) (p : Page),
         get_playlist_id (playlist_url wd) = Some playlist_id ->
         build w = (Ret tt, w1) ->
         execute playlist_id None w1 = (Ret p, w2) ->
         PyStr.truthy_opt (nextPageToken p) = false ->
         forallb has_parts (page_items p) = true ->
         videos_of (page_items p) = [] ->
         (0 < fuel)%nat ->
         page SUMMARY_PROMPT QA_PROMPT fuel wd c w
         = Some (Ret tt, c, w2,
                 [Shown (EvPageRequest playlist_id None); NoVideosFound])).
Proof.
  intros T. unfold page. rewrite T. cbn [negb]. split.
  - intros Hid. unfold extract_playlist_items, fetch_playlist.
    rewrite Hid. reflexivity.
  - intros playlist_id w1 w2 p Hid Hb Ep Tp Hc Hv Hf.
    unfold extract_playlist_items, fetch_playlist.
    rewrite (playlist_id_truthy _ _ Hid), Hid, Hb. cbn [negb].
    destruct fuel as [|fuel]; [lia|]. cbn [paging_loop]. rewrite Ep.
    change (match items p with Some l => l | None => [] end)
      with (page_items p).
    rewrite (collect_items_complete _ _ Hc), Tp, Hv. reflexivity.
Qed.

End PageFacts.

Lemma page_cost_witness :
  (invocations
     (shown_events
        [Shown (EvPageRequest "PL123" None);
         Shown (EvPageRequest "PL123" (Some "T2"));
         FoundVideos 2])
   <= 12 * 1)%nat.
Proof.
  apply (@page_cost (scripted two_pages) "notes: " "questions: " 5
           {| playlist_url := "https://www.youtube.com/playlist?list=PL123";
              max_videos := 1;
              process_option := AllVideos;
              throttle_delay := 10;
              selected_indices := [];
              start_button := false |}
           [] 0%nat (Ret tt) [] 0%nat
           [Shown (EvPageRequest "PL123" None);
            Shown (EvPageRequest "PL123" (Some "T2"));
            FoundVideos 2]).
  - cbn. lia.
  - reflexivity.
Defined.

Lemma no_videos_end_the_page_witness :
  @page (scripted empty_listing) "notes: " "questions: " 5
    {| playlist_url := "https://www.youtube.com/watch?v=abc";
       max_videos := 10;
       process_option := AllVideos;
       throttle_delay := 10;
       selected_indices := [];
       start_button := true |}
    [] 0%nat
  = Some (Ret tt, [], 0%nat,
          [Shown (EvError (PlaylistFetchFailed "Invalid playlist URL"));
           NoVideosFound])
  /\ @page (scripted empty_listing) "notes: " "questions: " 5
       {| playlist_url := "https://www.youtube.com/playlist?list=PL123";
          max_videos := 10;
          process_option := AllVideos;
          throttle_delay := 10;
          selected_indices := [];
          start_button := true |}
       [] 0%nat
     = Some (Ret tt, [], 0%nat,
             [Shown (EvPageRequest "PL123" None); NoVideosFound]).
Proof.
  split.
  - apply (proj1 (@no_videos_end_the_page (scripted empty_listing)
                    "notes: " "questions: " 5
                    {| playlist_url := "https://www.youtube.com/watch?v=abc";
                       max_videos := 10;
                       process_option := AllVideos;
                       throttle_delay := 10;
                       selected_indices := [];
                       start_button := true |}
                    [] 0%nat eq_refl)).
    reflexivity.
  - apply (proj2 (@no_videos_end_the_page (scripted empty_listing)
                    "notes: " "questions: " 5
                    {| playlist_url :=
                         "https://www.youtube.com/playlist?list=PL123";
                       max_videos := 10;
                       process_option := AllVideos;
                       throttle_delay := 10;
                       selected_indices := [];
                       start_button := true |}
                    [] 0%nat eq_refl)
             "PL123" 0%nat 0%nat
             {| items := None; nextPageToken := None |});
      try reflexivity.
    cbn. lia.
Defined.
